(** * ConnectToolCLI: the command dispatcher and the response renderers

    A shallow embedding of [main.go].  The program is a one-shot client:
    it reads its positional arguments, contacts the lobby/VPN service over
    a local socket with one unary call, prints the answer and terminates.

    What the process does is recorded as a trace of events (writes to the
    two standard streams, creation and release of the connection, remote
    calls) together with its exit status.  The remote service is the Go
    interface [ConnectToolServiceClient]; here it is a type class, and a
    test double is an instance of it. *)

From Stdlib Require Import ZArith List Bool Lia.
From Stdlib Require Import Strings.String Strings.Ascii Numbers.DecimalString.
From Stdlib Require DecimalPos DecimalZ.
Import ListNotations.

Open Scope string_scope.
Open Scope Z_scope.

(** ** Text produced by the [fmt] verbs the program uses *)

Definition nl : string := String "010"%char EmptyString.
Definition tab : string := String "009"%char EmptyString.
Definition dquote : string := String "034"%char EmptyString.

(** [%d] on an integer value. *)
Definition fmt_d (z : Z) : string := NilZero.string_of_int (Z.to_int z).

(** [%v] on a [bool]. *)
Definition fmt_v (b : bool) : string := if b then "true" else "false".

(** [%q] on a string without characters that need escaping (the two
    default socket paths are such strings). *)
Definition fmt_q (s : string) : string := dquote ++ s ++ dquote.

(** Conversion of an unsigned integer to [byte]: the low eight bits. *)
Definition byte (x : Z) : Z := x mod 256.

Definition ends_with_newline (s : string) : bool :=
  match String.length s with
  | O => false
  | S n => match String.get n s with
           | Some c => Ascii.eqb c "010"%char
           | None => false
           end
  end.

(** ** Messages exchanged with the service *)

Module CreateLobbyRequest.
Record t : Type := Build { }.
End CreateLobbyRequest.

Module CreateLobbyResponse.
Record t : Type := Build { Success : bool; LobbyId : string }.
End CreateLobbyResponse.

Module JoinLobbyRequest.
Record t : Type := Build { LobbyId : string }.
End JoinLobbyRequest.

Module JoinLobbyResponse.
Record t : Type := Build { Success : bool; Message : string }.
End JoinLobbyResponse.

Module LeaveLobbyRequest.
Record t : Type := Build { }.
End LeaveLobbyRequest.

Module LeaveLobbyResponse.
Record t : Type := Build { Success : bool }.
End LeaveLobbyResponse.

Module LobbyMember.
Record t : Type :=
  Build { Name : string; SteamId : string; Ping : Z; RelayInfo : string }.
End LobbyMember.

Module GetLobbyInfoRequest.
Record t : Type := Build { }.
End GetLobbyInfoRequest.

Module GetLobbyInfoResponse.
Record t : Type :=
  Build { IsInLobby : bool; LobbyId : string; Members : list LobbyMember.t }.
End GetLobbyInfoResponse.

Module FriendLobby.
Record t : Type := Build { Name : string; SteamId : string; LobbyId : string }.
End FriendLobby.

Module GetFriendLobbiesRequest.
Record t : Type := Build { }.
End GetFriendLobbiesRequest.

Module GetFriendLobbiesResponse.
Record t : Type := Build { Lobbies : list FriendLobby.t }.
End GetFriendLobbiesResponse.

Module InviteFriendRequest.
Record t : Type := Build { FriendSteamId : string }.
End InviteFriendRequest.

Module InviteFriendResponse.
Record t : Type := Build { Success : bool }.
End InviteFriendResponse.

Module VPNStats.
Record t : Type :=
  Build { PacketsSent : Z; BytesSent : Z;
          PacketsReceived : Z; BytesReceived : Z;
          PacketsDropped : Z }.
End VPNStats.

Module GetVPNStatusRequest.
Record t : Type := Build { }.
End GetVPNStatusRequest.

(** [Stats] is a pointer in the Go message: [None] is the nil pointer. *)
Module GetVPNStatusResponse.
Record t : Type :=
  Build { Enabled : bool; LocalIp : string; DeviceName : string;
          Stats : option VPNStats.t }.
End GetVPNStatusResponse.

(** [Ip] is a [uint32]. *)
Module VPNRoute.
Record t : Type := Build { Ip : Z; Name : string; IsLocal : bool }.
Definition wf (r : t) : Prop := 0 <= Ip r < 2 ^ 32.
End VPNRoute.

Module GetVPNRoutingTableRequest.
Record t : Type := Build { }.
End GetVPNRoutingTableRequest.

Module GetVPNRoutingTableResponse.
Record t : Type := Build { Routes : list VPNRoute.t }.
End GetVPNRoutingTableResponse.

(** The request of a remote call, tagged by the method it is sent to. *)
Inductive Request : Type :=
| ReqCreateLobby (r : CreateLobbyRequest.t)
| ReqJoinLobby (r : JoinLobbyRequest.t)
| ReqLeaveLobby (r : LeaveLobbyRequest.t)
| ReqGetLobbyInfo (r : GetLobbyInfoRequest.t)
| ReqGetFriendLobbies (r : GetFriendLobbiesRequest.t)
| ReqInviteFriend (r : InviteFriendRequest.t)
| ReqGetVPNStatus (r : GetVPNStatusRequest.t)
| ReqGetVPNRoutingTable (r : GetVPNRoutingTableRequest.t).

(** The method a request is addressed to. *)
Inductive Method : Type :=
| MCreateLobby | MJoinLobby | MLeaveLobby | MGetLobbyInfo
| MGetFriendLobbies | MInviteFriend | MGetVPNStatus | MGetVPNRoutingTable.

Definition method_of (r : Request) : Method :=
  match r with
  | ReqCreateLobby _ => MCreateLobby
  | ReqJoinLobby _ => MJoinLobby
  | ReqLeaveLobby _ => MLeaveLobby
  | ReqGetLobbyInfo _ => MGetLobbyInfo
  | ReqGetFriendLobbies _ => MGetFriendLobbies
  | ReqInviteFriend _ => MInviteFriend
  | ReqGetVPNStatus _ => MGetVPNStatus
  | ReqGetVPNRoutingTable _ => MGetVPNRoutingTable
  end.

(** ** Context, service interface, host *)

(** [time.Duration] counts nanoseconds. *)
Definition Nanosecond : Z := 1.
Definition Second : Z := 1000000000 * Nanosecond.

(** A context carries the timeout it was made with; [None] is
    [context.Background()]. *)
Record Context : Type := { timeout : option Z }.

Definition Background : Context := {| timeout := None |}.
Definition WithTimeout (parent : Context) (d : Z) : Context :=
  {| timeout := Some d |}.

(** The [(response, error)] pair of a call: [inl msg] is a non-nil error
    whose text is [msg], [inr r] a response with a nil error. *)
Definition Result (A : Type) : Type := (string + A)%type.

Class ConnectToolServiceClient : Type := {
  CreateLobby : Context -> CreateLobbyRequest.t -> Result CreateLobbyResponse.t;
  JoinLobby : Context -> JoinLobbyRequest.t -> Result JoinLobbyResponse.t;
  LeaveLobby : Context -> LeaveLobbyRequest.t -> Result LeaveLobbyResponse.t;
  GetLobbyInfo : Context -> GetLobbyInfoRequest.t
                 -> Result GetLobbyInfoResponse.t;
  GetFriendLobbies : Context -> GetFriendLobbiesRequest.t
                     -> Result GetFriendLobbiesResponse.t;
  InviteFriend : Context -> InviteFriendRequest.t
                 -> Result InviteFriendResponse.t;
  GetVPNStatus : Context -> GetVPNStatusRequest.t
                 -> Result GetVPNStatusResponse.t;
  GetVPNRoutingTable : Context -> GetVPNRoutingTableRequest.t
                       -> Result GetVPNRoutingTableResponse.t
}.

(** What the program reads from its host: [runtime.GOOS], the header the
    standard logger puts before a message (date and time), and the outcome
    of [grpc.NewClient] on a target ([Some msg] is a non-nil error). *)
Record Host : Type := {
  GOOS : string;
  log_header : string;
  NewClient : string -> option string
}.

(** The state [flag.Parse] leaves behind: the value of the [socket] flag
    and the positional arguments, [flag.Args()]. *)
Record Invocation : Type := {
  socketPath : string;
  Args : list string
}.

(** [flag.Arg(i)]: the empty string when there is no such argument. *)
Definition Arg (inv : Invocation) (i : nat) : string := nth i (Args inv) "".

(** ** Events and the process monad *)

Inductive Event : Type :=
| Stdout (s : string)
| Stderr (s : string)
| Connect (target : string)
| Rpc (ctx : Context) (req : Request)
| Cancel
| Close.

(** A computation either goes on with a value or has terminated the
    process with a status ([os.Exit], [log.Fatal]); what follows a
    terminated computation does not run. *)
Inductive Step (A : Type) : Type :=
| Done (a : A)
| Halt (code : Z).
Arguments Done {A} a.
Arguments Halt {A} code.

Definition Proc (A : Type) : Type := (list Event * Step A)%type.

Definition ret {A} (a : A) : Proc A := ([], Done a).

Definition bind {A B} (m : Proc A) (k : A -> Proc B) : Proc B :=
  match m with
  | (tr, Done a) => let (tr', r) := k a in ((tr ++ tr')%list, r)
  | (tr, Halt c) => (tr, Halt c)
  end.

Notation "x <- m ;; k" := (bind m (fun x => k))
  (at level 61, m at next level, right associativity).
Notation "m ;; k" := (bind m (fun _ => k))
  (at level 61, right associativity).

Definition emit (e : Event) : Proc unit := ([e], Done tt).

Definition os_Exit {A} (code : Z) : Proc A := ([], Halt code).

Definition Println (s : string) : Proc unit := emit (Stdout (s ++ nl)).
Definition Printf (s : string) : Proc unit := emit (Stdout s).

(** The standard logger writes header and message to standard error and
    ends the line unless the message already ends it. *)
Definition log_line (header msg : string) : string :=
  header ++ msg ++ (if ends_with_newline msg then "" else nl).

Definition log_Fatal {A} (header msg : string) : Proc A :=
  emit (Stderr (log_line header msg)) ;; os_Exit 1.

(** [for _, x := range l { body x }] *)
Fixpoint for_range {A} (l : list A) (body : A -> Proc unit) : Proc unit :=
  match l with
  | [] => ret tt
  | x :: l' => body x ;; for_range l' body
  end.

(** The outcome of a process run. *)
Record Outcome : Type := { trace : list Event; status : Z }.

(** A computation that returns normally ends the process with status 0. *)
Definition finish (p : Proc unit) : Outcome :=
  match p with
  | (tr, Done _) => {| trace := tr; status := 0 |}
  | (tr, Halt c) => {| trace := tr; status := c |}
  end.

(** ** Observations on traces *)

Fixpoint stdout_of (tr : list Event) : string :=
  match tr with
  | [] => ""
  | Stdout s :: tr' => s ++ stdout_of tr'
  | _ :: tr' => stdout_of tr'
  end.

Fixpoint stderr_of (tr : list Event) : string :=
  match tr with
  | [] => ""
  | Stderr s :: tr' => s ++ stderr_of tr'
  | _ :: tr' => stderr_of tr'
  end.

Fixpoint calls_of (tr : list Event) : list Request :=
  match tr with
  | [] => []
  | Rpc _ r :: tr' => r :: calls_of tr'
  | _ :: tr' => calls_of tr'
  end.

Fixpoint contexts_of (tr : list Event) : list Context :=
  match tr with
  | [] => []
  | Rpc c _ :: tr' => c :: contexts_of tr'
  | _ :: tr' => contexts_of tr'
  end.

(** ** The program *)

Section Program.

Context (host : Host) {client : ConnectToolServiceClient}.

Definition Fatal {A} (msg : string) : Proc A :=
  log_Fatal (log_header host) msg.

(** A unary call: the request goes out, the service's answer comes
    back. *)
Definition invoke {A} (ctx : Context) (req : Request) (answer : Result A)
  : Proc (Result A) :=
  emit (Rpc ctx req) ;; ret answer.

Definition defaultSocketPath : string :=
  if String.eqb (GOOS host) "windows" then "connect_tool.sock"
  else "/tmp/connect_tool.sock".

(** [flag.PrintDefaults()] with the one flag the program defines, a
    string flag named [socket] whose default is not the empty string;
    the flag set writes to standard error. *)
Definition PrintDefaults : Proc unit :=
  emit (Stderr ("  -socket string" ++ nl ++ "    " ++ tab
                ++ "Path to the Unix Domain Socket"
                ++ " (default " ++ fmt_q defaultSocketPath ++ ")" ++ nl)).

Definition printUsage : Proc unit :=
  Println "Usage: connecttoolcli [flags] <command> [args...]" ;;
  Println "Commands:" ;;
  Println "  create                   Create a new lobby" ;;
  Println "  join <lobby_id>          Join a lobby" ;;
  Println "  leave                    Leave current lobby" ;;
  Println "  info                     Get current lobby info" ;;
  Println "  friends                  List friend lobbies" ;;
  Println "  invite <steam_id>        Invite a friend" ;;
  Println "  vpn-status               Get VPN status" ;;
  Println "  vpn-routes               Get VPN routing table" ;;
  Println "Flags:" ;;
  PrintDefaults.

Definition createLobby (ctx : Context) : Proc unit :=
  let req := CreateLobbyRequest.Build in
  res <- invoke ctx (ReqCreateLobby req) (CreateLobby ctx req) ;;
  match res with
  | inl err => Fatal ("could not create lobby: " ++ err)
  | inr r =>
      Printf ("Success: " ++ fmt_v (CreateLobbyResponse.Success r)
              ++ ", Lobby ID: " ++ CreateLobbyResponse.LobbyId r ++ nl)
  end.

Definition joinLobby (ctx : Context) (lobbyID : string) : Proc unit :=
  let req := JoinLobbyRequest.Build lobbyID in
  res <- invoke ctx (ReqJoinLobby req) (JoinLobby ctx req) ;;
  match res with
  | inl err => Fatal ("could not join lobby: " ++ err)
  | inr r =>
      Printf ("Success: " ++ fmt_v (JoinLobbyResponse.Success r)
              ++ ", Message: " ++ JoinLobbyResponse.Message r ++ nl)
  end.

Definition leaveLobby (ctx : Context) : Proc unit :=
  let req := LeaveLobbyRequest.Build in
  res <- invoke ctx (ReqLeaveLobby req) (LeaveLobby ctx req) ;;
  match res with
  | inl err => Fatal ("could not leave lobby: " ++ err)
  | inr r => Printf ("Success: " ++ fmt_v (LeaveLobbyResponse.Success r) ++ nl)
  end.

Definition member_line (m : LobbyMember.t) : string :=
  "  - Name: " ++ LobbyMember.Name m ++ ", ID: " ++ LobbyMember.SteamId m
  ++ ", Ping: " ++ fmt_d (LobbyMember.Ping m)
  ++ ", Relay: " ++ LobbyMember.RelayInfo m ++ nl.

Definition getLobbyInfo (ctx : Context) : Proc unit :=
  let req := GetLobbyInfoRequest.Build in
  res <- invoke ctx (ReqGetLobbyInfo req) (GetLobbyInfo ctx req) ;;
  match res with
  | inl err => Fatal ("could not get lobby info: " ++ err)
  | inr r =>
      Printf ("In Lobby: " ++ fmt_v (GetLobbyInfoResponse.IsInLobby r) ++ nl) ;;
      if GetLobbyInfoResponse.IsInLobby r then
        Printf ("Lobby ID: " ++ GetLobbyInfoResponse.LobbyId r ++ nl) ;;
        Println "Members:" ;;
        for_range (GetLobbyInfoResponse.Members r)
                  (fun m => Printf (member_line m))
      else ret tt
  end.

Definition friend_line (l : FriendLobby.t) : string :=
  "  - Friend: " ++ FriendLobby.Name l ++ " (" ++ FriendLobby.SteamId l
  ++ "), Lobby: " ++ FriendLobby.LobbyId l ++ nl.

Definition getFriendLobbies (ctx : Context) : Proc unit :=
  let req := GetFriendLobbiesRequest.Build in
  res <- invoke ctx (ReqGetFriendLobbies req) (GetFriendLobbies ctx req) ;;
  match res with
  | inl err => Fatal ("could not get friend lobbies: " ++ err)
  | inr r =>
      Println "Friend Lobbies:" ;;
      for_range (GetFriendLobbiesResponse.Lobbies r)
                (fun l => Printf (friend_line l))
  end.

Definition inviteFriend (ctx : Context) (friendID : string) : Proc unit :=
  let req := InviteFriendRequest.Build friendID in
  res <- invoke ctx (ReqInviteFriend req) (InviteFriend ctx req) ;;
  match res with
  | inl err => Fatal ("could not invite friend: " ++ err)
  | inr r =>
      Printf ("Success: " ++ fmt_v (InviteFriendResponse.Success r) ++ nl)
  end.

Definition getVPNStatus (ctx : Context) : Proc unit :=
  let req := GetVPNStatusRequest.Build in
  res <- invoke ctx (ReqGetVPNStatus req) (GetVPNStatus ctx req) ;;
  match res with
  | inl err => Fatal ("could not get VPN status: " ++ err)
  | inr r =>
      Printf ("Enabled: " ++ fmt_v (GetVPNStatusResponse.Enabled r) ++ nl) ;;
      if GetVPNStatusResponse.Enabled r then
        Printf ("Local IP: " ++ GetVPNStatusResponse.LocalIp r ++ nl) ;;
        Printf ("Device: " ++ GetVPNStatusResponse.DeviceName r ++ nl) ;;
        match GetVPNStatusResponse.Stats r with
        | Some stats =>
            Println "Stats:" ;;
            Printf ("  Sent: " ++ fmt_d (VPNStats.PacketsSent stats)
                    ++ " pkts / " ++ fmt_d (VPNStats.BytesSent stats)
                    ++ " bytes" ++ nl) ;;
            Printf ("  Recv: " ++ fmt_d (VPNStats.PacketsReceived stats)
                    ++ " pkts / " ++ fmt_d (VPNStats.BytesReceived stats)
                    ++ " bytes" ++ nl) ;;
            Printf ("  Dropped: " ++ fmt_d (VPNStats.PacketsDropped stats)
                    ++ " pkts" ++ nl)
        | None => ret tt
        end
      else ret tt
  end.

(** The text the routing-table loop builds with
    [Sprintf("%d.%d.%d.%d", byte(ip>>24), byte(ip>>16), byte(ip>>8), byte(ip))]. *)
Definition ip_string (ip : Z) : string :=
  fmt_d (byte (Z.shiftr ip 24)) ++ "." ++ fmt_d (byte (Z.shiftr ip 16))
  ++ "." ++ fmt_d (byte (Z.shiftr ip 8)) ++ "." ++ fmt_d (byte ip).

Definition route_line (route : VPNRoute.t) : string :=
  let ip := ip_string (VPNRoute.Ip route) in
  "  - IP: " ++ ip ++ ", Name: " ++ VPNRoute.Name route
  ++ ", Local: " ++ fmt_v (VPNRoute.IsLocal route) ++ nl.

Definition getVPNRoutingTable (ctx : Context) : Proc unit :=
  let req := GetVPNRoutingTableRequest.Build in
  res <- invoke ctx (ReqGetVPNRoutingTable req) (GetVPNRoutingTable ctx req) ;;
  match res with
  | inl err => Fatal ("could not get VPN routing table: " ++ err)
  | inr r =>
      Println "Routing Table:" ;;
      for_range (GetVPNRoutingTableResponse.Routes r)
                (fun route => Printf (route_line route))
  end.

(** The [switch] of [main]. *)
Definition dispatch (inv : Invocation) (ctx : Context) : Proc unit :=
  let command := Arg inv 0 in
  if String.eqb command "create" then createLobby ctx
  else if String.eqb command "join" then
    (if (List.length (Args inv) <? 2)%nat
     then Fatal "Usage: join <lobby_id>" else ret tt) ;;
    joinLobby ctx (Arg inv 1)
  else if String.eqb command "leave" then leaveLobby ctx
  else if String.eqb command "info" then getLobbyInfo ctx
  else if String.eqb command "friends" then getFriendLobbies ctx
  else if String.eqb command "invite" then
    (if (List.length (Args inv) <? 2)%nat
     then Fatal "Usage: invite <steam_id>" else ret tt) ;;
    inviteFriend ctx (Arg inv 1)
  else if String.eqb command "vpn-status" then getVPNStatus ctx
  else if String.eqb command "vpn-routes" then getVPNRoutingTable ctx
  else
    Printf ("Unknown command: " ++ command ++ nl) ;;
    printUsage ;;
    os_Exit 1.

(** [main], from the point where [flag.Parse] has returned.  The two
    deferred calls run, last deferred first, when [main] returns; they
    do not run when the process is ended by [os.Exit] or [log.Fatal]. *)
Definition main_body (inv : Invocation) : Proc unit :=
  (if (List.length (Args inv) <? 1)%nat
   then printUsage ;; os_Exit 1 else ret tt) ;;
  let target := "unix:" ++ socketPath inv in
  emit (Connect target) ;;
  match NewClient host target with
  | Some err => Fatal ("did not connect: " ++ err)
  | None => ret tt
  end ;;
  let ctx := WithTimeout Background (5 * Second) in
  dispatch inv ctx ;;
  emit Cancel ;;
  emit Close.

Definition main (inv : Invocation) : Outcome := finish (main_body inv).

End Program.

Arguments main host {client} inv.

(** ** The command table, as the specification lists it *)

Definition commands : list string :=
  ["create"; "join"; "leave"; "info"; "friends"; "invite";
   "vpn-status"; "vpn-routes"].

Definition recognized (c : string) : bool := existsb (String.eqb c) commands.

(** The commands that take one more positional argument. *)
Definition needs_argument (c : string) : bool :=
  String.eqb c "join" || String.eqb c "invite".

Definition command_method (c : string) : option Method :=
  if String.eqb c "create" then Some MCreateLobby
  else if String.eqb c "join" then Some MJoinLobby
  else if String.eqb c "leave" then Some MLeaveLobby
  else if String.eqb c "info" then Some MGetLobbyInfo
  else if String.eqb c "friends" then Some MGetFriendLobbies
  else if String.eqb c "invite" then Some MInviteFriend
  else if String.eqb c "vpn-status" then Some MGetVPNStatus
  else if String.eqb c "vpn-routes" then Some MGetVPNRoutingTable
  else None.

Definition all_methods : list Method :=
  [MCreateLobby; MJoinLobby; MLeaveLobby; MGetLobbyInfo;
   MGetFriendLobbies; MInviteFriend; MGetVPNStatus; MGetVPNRoutingTable].

(** The invocations the specification calls usage errors. *)
Definition usage_error (inv : Invocation) : Prop :=
  Args inv = []
  \/ recognized (Arg inv 0) = false
  \/ (needs_argument (Arg inv 0) = true /\ (List.length (Args inv) < 2)%nat).

(** The deadline every call is given. *)
Definition call_context : Context := WithTimeout Background (5 * Second).

Section Handlers.

Context (host : Host) {client : ConnectToolServiceClient}.

(** The handler behind each method, with the positional argument the
    two commands that have one pass on. *)
Definition handler (m : Method) (arg : string) (ctx : Context) : Proc unit :=
  match m with
  | MCreateLobby => createLobby host ctx
  | MJoinLobby => joinLobby host ctx arg
  | MLeaveLobby => leaveLobby host ctx
  | MGetLobbyInfo => getLobbyInfo host ctx
  | MGetFriendLobbies => getFriendLobbies host ctx
  | MInviteFriend => inviteFriend host ctx arg
  | MGetVPNStatus => getVPNStatus host ctx
  | MGetVPNRoutingTable => getVPNRoutingTable host ctx
  end.

(** The request a handler builds. *)
Definition request_of (m : Method) (arg : string) : Request :=
  match m with
  | MCreateLobby => ReqCreateLobby CreateLobbyRequest.Build
  | MJoinLobby => ReqJoinLobby (JoinLobbyRequest.Build arg)
  | MLeaveLobby => ReqLeaveLobby LeaveLobbyRequest.Build
  | MGetLobbyInfo => ReqGetLobbyInfo GetLobbyInfoRequest.Build
  | MGetFriendLobbies => ReqGetFriendLobbies GetFriendLobbiesRequest.Build
  | MInviteFriend => ReqInviteFriend (InviteFriendRequest.Build arg)
  | MGetVPNStatus => ReqGetVPNStatus GetVPNStatusRequest.Build
  | MGetVPNRoutingTable =>
      ReqGetVPNRoutingTable GetVPNRoutingTableRequest.Build
  end.

Definition error_of {A} (r : Result A) : option string :=
  match r with inl e => Some e | inr _ => None end.

(** The error, if any, with which the service answers a handler's
    call. *)
Definition call_error (m : Method) (arg : string) (ctx : Context)
  : option string :=
  match m with
  | MCreateLobby => error_of (CreateLobby ctx CreateLobbyRequest.Build)
  | MJoinLobby => error_of (JoinLobby ctx (JoinLobbyRequest.Build arg))
  | MLeaveLobby => error_of (LeaveLobby ctx LeaveLobbyRequest.Build)
  | MGetLobbyInfo => error_of (GetLobbyInfo ctx GetLobbyInfoRequest.Build)
  | MGetFriendLobbies =>
      error_of (GetFriendLobbies ctx GetFriendLobbiesRequest.Build)
  | MInviteFriend =>
      error_of (InviteFriend ctx (InviteFriendRequest.Build arg))
  | MGetVPNStatus => error_of (GetVPNStatus ctx GetVPNStatusRequest.Build)
  | MGetVPNRoutingTable =>
      error_of (GetVPNRoutingTable ctx GetVPNRoutingTableRequest.Build)
  end.

(** What each handler puts before the error text. *)
Definition failure_text (m : Method) : string :=
  match m with
  | MCreateLobby => "could not create lobby: "
  | MJoinLobby => "could not join lobby: "
  | MLeaveLobby => "could not leave lobby: "
  | MGetLobbyInfo => "could not get lobby info: "
  | MGetFriendLobbies => "could not get friend lobbies: "
  | MInviteFriend => "could not invite friend: "
  | MGetVPNStatus => "could not get VPN status: "
  | MGetVPNRoutingTable => "could not get VPN routing table: "
  end.

(** The events of the usage message. *)
Definition usage_trace : list Event := fst (printUsage host).

(** The usage message occurs, whole, in a trace. *)
Definition prints_usage (tr : list Event) : Prop :=
  exists pre post, tr = (pre ++ usage_trace ++ post)%list.

(** A usage failure as the specification describes it. *)
Definition usage_failure (o : Outcome) : Prop :=
  prints_usage (trace o) /\ status o = 1 /\ calls_of (trace o) = [].

(** A method is exercised when some invocation sends a request to it. *)
Definition exercised (m : Method) : Prop :=
  exists inv, In m (map method_of (calls_of (trace (main host inv)))).

(** The client exercises exactly [n] request/response pairs. *)
Definition pairs_exercised (n : nat) : Prop :=
  exists ms, NoDup ms /\ List.length ms = n /\
             forall m, In m ms <-> exercised m.

End Handlers.

Arguments exercised host {client} m.
Arguments pairs_exercised host {client} n.

(** The events of the stats payload of a VPN status. *)
Definition stats_lines (stats : VPNStats.t) : list Event :=
  [Stdout ("Stats:" ++ nl);
   Stdout ("  Sent: " ++ fmt_d (VPNStats.PacketsSent stats) ++ " pkts / "
           ++ fmt_d (VPNStats.BytesSent stats) ++ " bytes" ++ nl);
   Stdout ("  Recv: " ++ fmt_d (VPNStats.PacketsReceived stats) ++ " pkts / "
           ++ fmt_d (VPNStats.BytesReceived stats) ++ " bytes" ++ nl);
   Stdout ("  Dropped: " ++ fmt_d (VPNStats.PacketsDropped stats)
           ++ " pkts" ++ nl)].

(** The octets as the specification writes them. *)
Definition dotted_quad (v : Z) : string :=
  fmt_d (Z.land (Z.shiftr v 24) 255) ++ "."
  ++ fmt_d (Z.land (Z.shiftr v 16) 255) ++ "."
  ++ fmt_d (Z.land (Z.shiftr v 8) 255) ++ "."
  ++ fmt_d (Z.land v 255).

(** The command that selects a method. *)
Definition method_command (m : Method) : string :=
  match m with
  | MCreateLobby => "create"
  | MJoinLobby => "join"
  | MLeaveLobby => "leave"
  | MGetLobbyInfo => "info"
  | MGetFriendLobbies => "friends"
  | MInviteFriend => "invite"
  | MGetVPNStatus => "vpn-status"
  | MGetVPNRoutingTable => "vpn-routes"
  end.

(** [contains sub s]: [sub] occurs in [s]. *)
Fixpoint contains (sub s : string) : bool :=
  String.prefix sub s
  || match s with
     | EmptyString => false
     | String _ s' => contains sub s'
     end.

(** ** Test doubles *)

Definition linux_host : Host :=
  {| GOOS := "linux";
     log_header := "2026/01/02 03:04:05 ";
     NewClient := fun _ => None |}.

(** A host on which no client can be created. *)
Definition broken_host : Host :=
  {| GOOS := "linux";
     log_header := "2026/01/02 03:04:05 ";
     NewClient := fun _ => Some "invalid target" |}.

Definition sample_stats : VPNStats.t := VPNStats.Build 7 700 9 900 1.

Definition sample_member : LobbyMember.t :=
  LobbyMember.Build "ann" "76561198000000001" 42 "direct".

(** A service that answers every call. *)
Definition answering : ConnectToolServiceClient := {|
  CreateLobby := fun _ _ => inr (CreateLobbyResponse.Build true "L123");
  JoinLobby := fun _ r =>
    inr (JoinLobbyResponse.Build false
           ("no lobby " ++ JoinLobbyRequest.LobbyId r));
  LeaveLobby := fun _ _ => inr (LeaveLobbyResponse.Build false);
  GetLobbyInfo := fun _ _ =>
    inr (GetLobbyInfoResponse.Build false "L9" [sample_member]);
  GetFriendLobbies := fun _ _ => inr (GetFriendLobbiesResponse.Build []);
  InviteFriend := fun _ _ => inr (InviteFriendResponse.Build false);
  GetVPNStatus := fun _ _ =>
    inr (GetVPNStatusResponse.Build false "10.0.0.1" "tun0"
           (Some sample_stats));
  GetVPNRoutingTable := fun _ _ =>
    inr (GetVPNRoutingTableResponse.Build
           [VPNRoute.Build 0xC0A80001 "eth0" true;
            VPNRoute.Build 0 "lo" false])
|}.

(** A service that is in a lobby of nobody, has its VPN up without a
    stats payload, and no routes. *)
Definition idle : ConnectToolServiceClient := {|
  CreateLobby := fun _ _ => inr (CreateLobbyResponse.Build true "L123");
  JoinLobby := fun _ _ => inr (JoinLobbyResponse.Build true "joined");
  LeaveLobby := fun _ _ => inr (LeaveLobbyResponse.Build true);
  GetLobbyInfo := fun _ _ => inr (GetLobbyInfoResponse.Build true "L9" []);
  GetFriendLobbies := fun _ _ => inr (GetFriendLobbiesResponse.Build []);
  InviteFriend := fun _ _ => inr (InviteFriendResponse.Build true);
  GetVPNStatus := fun _ _ =>
    inr (GetVPNStatusResponse.Build true "10.0.0.1" "tun0" None);
  GetVPNRoutingTable := fun _ _ => inr (GetVPNRoutingTableResponse.Build [])
|}.

(** A service every call to which runs into the deadline. *)
Definition unreachable : ConnectToolServiceClient :=
  let e := "rpc error: code = DeadlineExceeded desc = context deadline exceeded" in
  {| CreateLobby := fun _ _ => inl e;
     JoinLobby := fun _ _ => inl e;
     LeaveLobby := fun _ _ => inl e;
     GetLobbyInfo := fun _ _ => inl e;
     GetFriendLobbies := fun _ _ => inl e;
     InviteFriend := fun _ _ => inl e;
     GetVPNStatus := fun _ _ => inl e;
     GetVPNRoutingTable := fun _ _ => inl e |}.

Definition invocation (args : list string) : Invocation :=
  {| socketPath := "/tmp/connect_tool.sock"; Args := args |}.

(** A service in use: a lobby of two, two friends in lobbies, the VPN up
    with a stats payload, one route. *)
Definition busy : ConnectToolServiceClient := {|
  CreateLobby := fun _ _ => inr (CreateLobbyResponse.Build false "");
  JoinLobby := fun _ _ => inr (JoinLobbyResponse.Build true "joined");
  LeaveLobby := fun _ _ => inr (LeaveLobbyResponse.Build true);
  GetLobbyInfo := fun _ _ =>
    inr (GetLobbyInfoResponse.Build true "L9"
           [sample_member;
            LobbyMember.Build "bob" "76561198000000002" (-1) "relay fra"]);
  GetFriendLobbies := fun _ _ =>
    inr (GetFriendLobbiesResponse.Build
           [FriendLobby.Build "cy" "76561198000000003" "L7";
            FriendLobby.Build "di" "76561198000000004" "L8"]);
  InviteFriend := fun _ _ => inr (InviteFriendResponse.Build true);
  GetVPNStatus := fun _ _ =>
    inr (GetVPNStatusResponse.Build true "10.0.0.1" "tun0"
           (Some sample_stats));
  GetVPNRoutingTable := fun _ _ =>
    inr (GetVPNRoutingTableResponse.Build
           [VPNRoute.Build 0x0A000001 "tun0" false])
|}.

(** A host that runs Windows. *)
Definition windows_host : Host :=
  {| GOOS := "windows";
     log_header := "2026/01/02 03:04:05 ";
     NewClient := fun _ => None |}.

(** ** The kinds of run *)

(** No character of [s] is a dot. *)
Fixpoint dot_free (s : string) : bool :=
  match s with
  | EmptyString => true
  | String c s' => negb (Ascii.eqb c ".") && dot_free s'
  end.



(** * Properties *)

(** ** Formatting *)

Lemma byte_low_bits (x : Z) : byte x = Z.land x 255.
Proof.
  unfold byte. change 255 with (Z.ones 8).
  rewrite Z.land_ones by lia. reflexivity.
Qed.

Lemma byte_range (x : Z) : 0 <= byte x < 256.
Proof. unfold byte. apply Z.mod_pos_bound. lia. Qed.

Lemma ip_string_dotted_quad (v : Z) : ip_string v = dotted_quad v.
Proof.
  unfold ip_string, dotted_quad. now rewrite !byte_low_bits.
Qed.

(** Each of the four numbers of an address is an octet; for a 32-bit
    address the first one is the value shifted, with nothing cut off. *)
Lemma ip_octets (r : VPNRoute.t) :
  VPNRoute.wf r ->
  byte (Z.shiftr (VPNRoute.Ip r) 24) = Z.shiftr (VPNRoute.Ip r) 24
  /\ 0 <= byte (Z.shiftr (VPNRoute.Ip r) 16) < 256
  /\ 0 <= byte (Z.shiftr (VPNRoute.Ip r) 8) < 256
  /\ 0 <= byte (VPNRoute.Ip r) < 256.
Proof.
  unfold VPNRoute.wf. intros [Hlo Hhi].
  split; [ | repeat split; apply byte_range ].
  unfold byte. apply Z.mod_small.
  rewrite Z.shiftr_div_pow2 by lia. split.
  - apply Z.div_pos; lia.
  - apply Z.div_lt_upper_bound; lia.
Qed.

(** ** The process monad *)

Lemma bind_ret_l {A B} (a : A) (k : A -> Proc B) : bind (ret a) k = k a.
Proof. unfold bind, ret. simpl. now destruct (k a). Qed.

(** Nothing runs after the process has ended. *)
Lemma bind_halt {A B} (tr : list Event) (c : Z) (k : A -> Proc B) :
  bind (tr, Halt c) k = (tr, Halt c).
Proof. reflexivity. Qed.

Lemma bind_assoc {A B C} (m : Proc A) (k : A -> Proc B) (h : B -> Proc C) :
  bind (bind m k) h = bind m (fun a => bind (k a) h).
Proof.
  destruct m as [tr [a | c]]; simpl; [ | reflexivity ].
  destruct (k a) as [tr1 [b | c]]; simpl; [ | reflexivity ].
  destruct (h b) as [tr2 r]. now rewrite app_assoc.
Qed.

Lemma for_range_printf {A} (f : A -> string) (l : list A) :
  for_range l (fun x => Printf (f x)) = (map (fun x => Stdout (f x)) l, Done tt).
Proof.
  induction l as [ | x l IH]; simpl.
  - reflexivity.
  - now rewrite IH.
Qed.

(** ** Observations *)

Lemma stdout_of_app (t1 t2 : list Event) :
  stdout_of (t1 ++ t2) = stdout_of t1 ++ stdout_of t2.
Proof.
  induction t1 as [ | e t1 IH]; simpl; [ reflexivity | ].
  destruct e; simpl; rewrite IH; try reflexivity.
  induction s as [ | ch s IHs]; simpl; [ reflexivity | now rewrite IHs ].
Qed.

Lemma calls_of_app (t1 t2 : list Event) :
  calls_of (t1 ++ t2) = (calls_of t1 ++ calls_of t2)%list.
Proof.
  induction t1 as [ | e t1 IH]; simpl; [ reflexivity | ].
  destruct e; simpl; now rewrite IH.
Qed.

Lemma contexts_of_app (t1 t2 : list Event) :
  contexts_of (t1 ++ t2) = (contexts_of t1 ++ contexts_of t2)%list.
Proof.
  induction t1 as [ | e t1 IH]; simpl; [ reflexivity | ].
  destruct e; simpl; now rewrite IH.
Qed.

Lemma calls_of_printed {A} (f : A -> string) (l : list A) :
  calls_of (map (fun x => Stdout (f x)) l) = [].
Proof. induction l; simpl; auto. Qed.

Lemma contexts_of_printed {A} (f : A -> string) (l : list A) :
  contexts_of (map (fun x => Stdout (f x)) l) = [].
Proof. induction l; simpl; auto. Qed.

Lemma stderr_of_printed {A} (f : A -> string) (l : list A) :
  stderr_of (map (fun x => Stdout (f x)) l) = "".
Proof. induction l; simpl; auto. Qed.

Lemma calls_of_usage (host : Host) : calls_of (usage_trace host) = [].
Proof. reflexivity. Qed.

Lemma usage_trace_length (host : Host) :
  List.length (usage_trace host) = 12%nat.
Proof. reflexivity. Qed.

(** ** What each handler does with an answer *)

Section HandlerFacts.

Context (host : Host) {client : ConnectToolServiceClient}.
Variable ctx : Context.

Lemma createLobby_answer (r : CreateLobbyResponse.t) :
  CreateLobby ctx CreateLobbyRequest.Build = inr r ->
  createLobby host ctx =
    ([Rpc ctx (ReqCreateLobby CreateLobbyRequest.Build);
      Stdout ("Success: " ++ fmt_v (CreateLobbyResponse.Success r)
              ++ ", Lobby ID: " ++ CreateLobbyResponse.LobbyId r ++ nl)],
     Done tt).
Proof. intros H. unfold createLobby, invoke. simpl. now rewrite H. Qed.

Lemma joinLobby_answer (lobbyID : string) (r : JoinLobbyResponse.t) :
  JoinLobby ctx (JoinLobbyRequest.Build lobbyID) = inr r ->
  joinLobby host ctx lobbyID =
    ([Rpc ctx (ReqJoinLobby (JoinLobbyRequest.Build lobbyID));
      Stdout ("Success: " ++ fmt_v (JoinLobbyResponse.Success r)
              ++ ", Message: " ++ JoinLobbyResponse.Message r ++ nl)],
     Done tt).
Proof. intros H. unfold joinLobby, invoke. simpl. now rewrite H. Qed.

Lemma leaveLobby_answer (r : LeaveLobbyResponse.t) :
  LeaveLobby ctx LeaveLobbyRequest.Build = inr r ->
  leaveLobby host ctx =
    ([Rpc ctx (ReqLeaveLobby LeaveLobbyRequest.Build);
      Stdout ("Success: " ++ fmt_v (LeaveLobbyResponse.Success r) ++ nl)],
     Done tt).
Proof. intros H. unfold leaveLobby, invoke. simpl. now rewrite H. Qed.

Lemma inviteFriend_answer (friendID : string) (r : InviteFriendResponse.t) :
  InviteFriend ctx (InviteFriendRequest.Build friendID) = inr r ->
  inviteFriend host ctx friendID =
    ([Rpc ctx (ReqInviteFriend (InviteFriendRequest.Build friendID));
      Stdout ("Success: " ++ fmt_v (InviteFriendResponse.Success r) ++ nl)],
     Done tt).
Proof. intros H. unfold inviteFriend, invoke. simpl. now rewrite H. Qed.

Lemma getLobbyInfo_answer (r : GetLobbyInfoResponse.t) :
  GetLobbyInfo ctx GetLobbyInfoRequest.Build = inr r ->
  getLobbyInfo host ctx =
    (Rpc ctx (ReqGetLobbyInfo GetLobbyInfoRequest.Build)
     :: Stdout ("In Lobby: " ++ fmt_v (GetLobbyInfoResponse.IsInLobby r) ++ nl)
     :: (if GetLobbyInfoResponse.IsInLobby r
         then Stdout ("Lobby ID: " ++ GetLobbyInfoResponse.LobbyId r ++ nl)
              :: Stdout ("Members:" ++ nl)
              :: map (fun m => Stdout (member_line m))
                     (GetLobbyInfoResponse.Members r)
         else []),
     Done tt).
Proof.
  intros H. unfold getLobbyInfo, invoke. simpl. rewrite H.
  destruct r as [inLobby id members]; simpl.
  destruct inLobby; simpl; [ | reflexivity ].
  now rewrite for_range_printf.
Qed.

Lemma getFriendLobbies_answer (r : GetFriendLobbiesResponse.t) :
  GetFriendLobbies ctx GetFriendLobbiesRequest.Build = inr r ->
  getFriendLobbies host ctx =
    (Rpc ctx (ReqGetFriendLobbies GetFriendLobbiesRequest.Build)
     :: Stdout ("Friend Lobbies:" ++ nl)
     :: map (fun l => Stdout (friend_line l))
            (GetFriendLobbiesResponse.Lobbies r),
     Done tt).
Proof.
  intros H. unfold getFriendLobbies, invoke. simpl. rewrite H. simpl.
  now rewrite for_range_printf.
Qed.

Lemma getVPNStatus_answer (r : GetVPNStatusResponse.t) :
  GetVPNStatus ctx GetVPNStatusRequest.Build = inr r ->
  getVPNStatus host ctx =
    (Rpc ctx (ReqGetVPNStatus GetVPNStatusRequest.Build)
     :: Stdout ("Enabled: " ++ fmt_v (GetVPNStatusResponse.Enabled r) ++ nl)
     :: (if GetVPNStatusResponse.Enabled r
         then Stdout ("Local IP: " ++ GetVPNStatusResponse.LocalIp r ++ nl)
              :: Stdout ("Device: " ++ GetVPNStatusResponse.DeviceName r ++ nl)
              :: match GetVPNStatusResponse.Stats r with
                 | Some stats => stats_lines stats
                 | None => []
                 end
         else []),
     Done tt).
Proof.
  intros H. unfold getVPNStatus, invoke. simpl. rewrite H.
  destruct r as [enabled ip dev stats]; simpl.
  destruct enabled; simpl; [ | reflexivity ].
  destruct stats; reflexivity.
Qed.

Lemma getVPNRoutingTable_answer (r : GetVPNRoutingTableResponse.t) :
  GetVPNRoutingTable ctx GetVPNRoutingTableRequest.Build = inr r ->
  getVPNRoutingTable host ctx =
    (Rpc ctx (ReqGetVPNRoutingTable GetVPNRoutingTableRequest.Build)
     :: Stdout ("Routing Table:" ++ nl)
     :: map (fun route => Stdout (route_line route))
            (GetVPNRoutingTableResponse.Routes r),
     Done tt).
Proof.
  intros H. unfold getVPNRoutingTable, invoke. simpl. rewrite H. simpl.
  now rewrite for_range_printf.
Qed.

End HandlerFacts.

(** ** Handlers in general *)

Section HandlerShape.

Context (host : Host) {client : ConnectToolServiceClient}.

(** A call that fails ends the process at once. *)
Lemma handler_error (m : Method) (arg : string) (ctx : Context) (e : string) :
  call_error m arg ctx = Some e ->
  handler host m arg ctx =
    ([Rpc ctx (request_of m arg);
      Stderr (log_line (log_header host) (failure_text m ++ e))],
     Halt 1).
Proof.
  intros H.
  destruct m; simpl in H |- *;
    unfold createLobby, joinLobby, leaveLobby, getLobbyInfo,
      getFriendLobbies, inviteFriend, getVPNStatus, getVPNRoutingTable,
      invoke; simpl;
    match type of H with
    | error_of ?a = _ => destruct a as [e' | r]; simpl in H
    end;
    try discriminate; injection H as ->; reflexivity.
Qed.

(** A call that is answered is followed by writes to standard output
    only, and the handler returns. *)
Lemma handler_answer (m : Method) (arg : string) (ctx : Context) :
  call_error m arg ctx = None ->
  exists tr,
    handler host m arg ctx = (Rpc ctx (request_of m arg) :: tr, Done tt)
    /\ calls_of tr = [] /\ contexts_of tr = [] /\ stderr_of tr = "".
Proof.
  intros H.
  destruct m; simpl in H |- *;
    match type of H with
    | error_of ?a = _ => destruct a as [e' | r] eqn:E; simpl in H
    end;
    try discriminate.
  - rewrite (createLobby_answer host ctx r E). eexists; repeat split.
  - rewrite (joinLobby_answer host ctx arg r E). eexists; repeat split.
  - rewrite (leaveLobby_answer host ctx r E). eexists; repeat split.
  - rewrite (getLobbyInfo_answer host ctx r E). eexists; split; [ reflexivity | ].
    destruct (GetLobbyInfoResponse.IsInLobby r); simpl;
      rewrite ?calls_of_printed, ?contexts_of_printed, ?stderr_of_printed;
      repeat split.
  - rewrite (getFriendLobbies_answer host ctx r E).
    eexists; split; [ reflexivity | ]. simpl.
    rewrite calls_of_printed, contexts_of_printed, stderr_of_printed.
    repeat split.
  - rewrite (inviteFriend_answer host ctx arg r E). eexists; repeat split.
  - rewrite (getVPNStatus_answer host ctx r E).
    eexists; split; [ reflexivity | ].
    destruct (GetVPNStatusResponse.Enabled r); simpl; [ | repeat split ].
    destruct (GetVPNStatusResponse.Stats r); repeat split.
  - rewrite (getVPNRoutingTable_answer host ctx r E).
    eexists; split; [ reflexivity | ]. simpl.
    rewrite calls_of_printed, contexts_of_printed, stderr_of_printed.
    repeat split.
Qed.

(** Every handler sends one request, its own, under the context it is
    given, whatever the answer. *)
Lemma handler_calls_once (m : Method) (arg : string) (ctx : Context) :
  calls_of (fst (handler host m arg ctx)) = [request_of m arg]
  /\ contexts_of (fst (handler host m arg ctx)) = [ctx].
Proof.
  destruct (call_error m arg ctx) as [e | ] eqn:E.
  - rewrite (handler_error m arg ctx e E). split; reflexivity.
  - destruct (handler_answer m arg ctx E) as (tr & -> & Hc & Hx & _).
    simpl. now rewrite Hc, Hx.
Qed.

Lemma method_of_request (m : Method) (arg : string) :
  method_of (request_of m arg) = m.
Proof. now destruct m. Qed.

End HandlerShape.

(** ** The dispatcher *)

Lemma recognized_iff (c : string) : recognized c = true <-> In c commands.
Proof.
  unfold recognized. rewrite existsb_exists. split.
  - intros (x & Hin & Heq). apply String.eqb_eq in Heq. now subst.
  - intros Hin. exists c. split; [ assumption | apply String.eqb_refl ].
Qed.

Lemma command_method_recognized (c : string) :
  recognized c = true <-> exists m, command_method c = Some m.
Proof.
  unfold recognized, command_method, commands, existsb.
  repeat (destruct (String.eqb c _); simpl;
          [ split; [ intros _; eexists; reflexivity | reflexivity ] | ]).
  split; [ discriminate | intros (m & H); discriminate ].
Qed.

Lemma command_method_none (c : string) :
  recognized c = false <-> command_method c = None.
Proof.
  pose proof (command_method_recognized c) as [Hr Hm]. split.
  - intros Hf. destruct (command_method c) as [m | ] eqn:E; [ | reflexivity ].
    rewrite Hm in Hf by now exists m. discriminate.
  - intros Hn. destruct (recognized c); [ | reflexivity ].
    destruct (Hr eq_refl) as [m E]. congruence.
Qed.

Lemma needs_argument_method (c : string) (m : Method) :
  command_method c = Some m ->
  needs_argument c = match m with
                     | MJoinLobby | MInviteFriend => true
                     | _ => false
                     end.
Proof.
  unfold command_method, needs_argument.
  destruct (String.eqb_spec c "create");
    [ subst; intros [= <-]; reflexivity | ].
  destruct (String.eqb_spec c "join");
    [ subst; intros [= <-]; reflexivity | ].
  destruct (String.eqb_spec c "leave");
    [ subst; intros [= <-]; reflexivity | ].
  destruct (String.eqb_spec c "info");
    [ subst; intros [= <-]; reflexivity | ].
  destruct (String.eqb_spec c "friends");
    [ subst; intros [= <-]; reflexivity | ].
  destruct (String.eqb_spec c "invite");
    [ subst; intros [= <-]; reflexivity | ].
  destruct (String.eqb_spec c "vpn-status");
    [ subst; intros [= <-]; reflexivity | ].
  destruct (String.eqb_spec c "vpn-routes");
    [ subst; intros [= <-]; reflexivity | ].
  discriminate.
Qed.

Section Dispatch.

Context (host : Host) {client : ConnectToolServiceClient}.

(** A recognized command that has the argument it needs runs its
    handler, and nothing else. *)
Lemma dispatch_handler (inv : Invocation) (ctx : Context) (m : Method) :
  command_method (Arg inv 0) = Some m ->
  (needs_argument (Arg inv 0) = true -> (2 <= List.length (Args inv))%nat) ->
  dispatch host inv ctx = handler host m (Arg inv 1) ctx.
Proof.
  intros Hm Harg.
  assert (Hlen : needs_argument (Arg inv 0) = true ->
                 (List.length (Args inv) <? 2)%nat = false)
    by (intros H; apply Nat.ltb_ge; auto).
  clear Harg. rewrite (needs_argument_method _ _ Hm) in Hlen.
  unfold dispatch. unfold command_method in Hm.
  repeat (destruct (String.eqb (Arg inv 0) _);
          [ injection Hm as <-; simpl handler;
            try (rewrite (Hlen eq_refl); rewrite bind_ret_l);
            reflexivity
          | ]).
  discriminate.
Qed.

(** An unrecognized command: the [default] case. *)
Lemma dispatch_unknown (inv : Invocation) (ctx : Context) :
  command_method (Arg inv 0) = None ->
  dispatch host inv ctx =
    (Stdout ("Unknown command: " ++ Arg inv 0 ++ nl) :: usage_trace host,
     Halt 1).
Proof.
  intros Hm. unfold dispatch. unfold command_method in Hm.
  repeat (destruct (String.eqb (Arg inv 0) _); [ discriminate | ]).
  reflexivity.
Qed.

(** [join] and [invite] without their argument. *)
Lemma dispatch_missing_argument (inv : Invocation) (ctx : Context) :
  needs_argument (Arg inv 0) = true ->
  (List.length (Args inv) < 2)%nat ->
  dispatch host inv ctx =
    ([Stderr (log_line (log_header host)
                (if String.eqb (Arg inv 0) "join"
                 then "Usage: join <lobby_id>"
                 else "Usage: invite <steam_id>"))],
     Halt 1).
Proof.
  intros Hn Hlen. apply Nat.ltb_lt in Hlen.
  unfold dispatch. unfold needs_argument in Hn. rewrite Hlen.
  destruct (String.eqb_spec (Arg inv 0) "join") as [-> | Hj];
    [ reflexivity | ].
  destruct (String.eqb_spec (Arg inv 0) "invite") as [-> | Hi];
    [ reflexivity | discriminate ].
Qed.

(** ** [main] *)

Lemma main_no_command (inv : Invocation) :
  Args inv = [] ->
  main host inv = {| trace := usage_trace host; status := 1 |}.
Proof. intros H. unfold main, main_body. rewrite H. reflexivity. Qed.

Lemma main_no_client (inv : Invocation) (err : string) :
  Args inv <> [] ->
  NewClient host ("unix:" ++ socketPath inv) = Some err ->
  main host inv =
    {| trace := [Connect ("unix:" ++ socketPath inv);
                 Stderr (log_line (log_header host)
                           ("did not connect: " ++ err))];
       status := 1 |}.
Proof.
  intros Hargs Hnew. unfold main, main_body.
  destruct (Args inv) as [ | a l]; [ contradiction | ].
  change (List.length (a :: l) <? 1)%nat with false. cbv iota.
  rewrite bind_ret_l.
  rewrite Hnew. reflexivity.
Qed.

Lemma main_dispatch (inv : Invocation) :
  Args inv <> [] ->
  NewClient host ("unix:" ++ socketPath inv) = None ->
  main host inv =
    match dispatch host inv call_context with
    | (tr, Done _) =>
        {| trace := (Connect ("unix:" ++ socketPath inv) :: tr
                     ++ [Cancel; Close])%list;
           status := 0 |}
    | (tr, Halt c) =>
        {| trace := Connect ("unix:" ++ socketPath inv) :: tr; status := c |}
    end.
Proof.
  intros Hargs Hnew. unfold main, main_body. cbv zeta.
  fold call_context.
  generalize (dispatch host inv call_context) as d. intros d.
  destruct (Args inv) as [ | a l]; [ contradiction | ].
  change (List.length (a :: l) <? 1)%nat with false. cbv iota.
  rewrite bind_ret_l.
  rewrite Hnew. destruct d as [tr [[] | c]]; reflexivity.
Qed.

End Dispatch.

Section MainFacts.

Context (host : Host) {client : ConnectToolServiceClient}.

(** A well-formed invocation of a recognized command, on a host that
    gives a client, runs the handler between creating the client and
    the deferred releases. *)
Lemma main_handler (inv : Invocation) (m : Method) :
  Args inv <> [] ->
  NewClient host ("unix:" ++ socketPath inv) = None ->
  command_method (Arg inv 0) = Some m ->
  (needs_argument (Arg inv 0) = true -> (2 <= List.length (Args inv))%nat) ->
  main host inv =
    match handler host m (Arg inv 1) call_context with
    | (tr, Done _) =>
        {| trace := (Connect ("unix:" ++ socketPath inv) :: tr
                     ++ [Cancel; Close])%list;
           status := 0 |}
    | (tr, Halt c) =>
        {| trace := Connect ("unix:" ++ socketPath inv) :: tr; status := c |}
    end.
Proof.
  intros Hargs Hnew Hm Harg.
  rewrite (main_dispatch host inv Hargs Hnew).
  now rewrite (dispatch_handler host inv call_context m Hm Harg).
Qed.

Lemma main_calls (inv : Invocation) (m : Method) :
  Args inv <> [] ->
  NewClient host ("unix:" ++ socketPath inv) = None ->
  command_method (Arg inv 0) = Some m ->
  (needs_argument (Arg inv 0) = true -> (2 <= List.length (Args inv))%nat) ->
  calls_of (trace (main host inv)) = [request_of m (Arg inv 1)]
  /\ contexts_of (trace (main host inv)) = [call_context].
Proof.
  intros Hargs Hnew Hm Harg.
  rewrite (main_handler inv m Hargs Hnew Hm Harg).
  destruct (handler_calls_once host m (Arg inv 1) call_context) as [Hc Hx].
  destruct (handler host m (Arg inv 1) call_context) as [tr [[] | c]];
    simpl in Hc, Hx |- *.
  - rewrite calls_of_app, contexts_of_app, Hc, Hx. split; reflexivity.
  - now rewrite Hc, Hx.
Qed.

Lemma command_of_method (m : Method) :
  command_method (method_command m) = Some m.
Proof. now destruct m. Qed.

Lemma in_all_methods (m : Method) : In m all_methods.
Proof. destruct m; simpl; tauto. Qed.

Lemma all_methods_nodup : NoDup all_methods.
Proof.
  unfold all_methods.
  repeat (constructor; [ simpl; intuition discriminate | ]).
  constructor.
Qed.

(** Each method is reached by its command. *)
Lemma method_exercised (sock : string) (m : Method) :
  NewClient host ("unix:" ++ sock) = None ->
  exercised host m.
Proof.
  intros Hnew.
  exists {| socketPath := sock; Args := [method_command m; "42"] |}.
  destruct (main_calls
              {| socketPath := sock; Args := [method_command m; "42"] |} m)
    as [Hc _]; try assumption.
  - discriminate.
  - apply command_of_method.
  - intros _. simpl. lia.
  - rewrite Hc. simpl. left. apply method_of_request.
Qed.

End MainFacts.

(** * The claims *)

(** ** Usage errors *)

(** C1, as stated, does not hold: [join] without a lobby id is a usage
    error, the process exits with status 1 and sends no request, but it
    writes nothing to standard output and only the line
    [Usage: join <lobby_id>] to standard error; the usage message that
    lists the commands and flags is not printed. *)
Lemma join_without_argument_prints_no_usage_listing :
  usage_error (invocation ["join"])
  /\ trace (@main linux_host answering (invocation ["join"]))
     = [Connect "unix:/tmp/connect_tool.sock";
        Stderr ("2026/01/02 03:04:05 Usage: join <lobby_id>" ++ nl)]
  /\ ~ usage_failure linux_host
         (@main linux_host answering (invocation ["join"])).
Proof.
  split; [ | split ].
  - right. right. split; [ reflexivity | simpl; lia ].
  - reflexivity.
  - intros [(pre & post & H) _].
    apply (f_equal (@List.length Event)) in H.
    rewrite !length_app, usage_trace_length in H.
    change (List.length (trace (@main linux_host answering (invocation ["join"]))))
      with 2%nat in H.
    lia.
Qed.

(** C1, amended: every usage error ends the process with status 1 before
    any request is sent.  Without a command token the usage message, which
    names every command and the [socket] flag, is the whole output.  With
    a client at hand, an unrecognized token gives [Unknown command: ...]
    and then the usage message, and [join] or [invite] without their
    argument give the one line [Usage: join <lobby_id>] or
    [Usage: invite <steam_id>] on standard error, through the logger.
    When no client can be made for a present token, the one line is
    [did not connect: ...]. *)
Theorem usage_error_exits_1_without_call
    (host : Host) (client : ConnectToolServiceClient) (inv : Invocation) :
  usage_error inv ->
  status (main host inv) = 1
  /\ calls_of (trace (main host inv)) = []
  /\ (Args inv = [] -> trace (main host inv) = usage_trace host)
  /\ (forall c, In c commands ->
        contains c (stdout_of (usage_trace host)) = true)
  /\ contains "-socket" (stderr_of (usage_trace host)) = true
  /\ (Args inv <> [] ->
      NewClient host ("unix:" ++ socketPath inv) = None ->
      recognized (Arg inv 0) = false ->
      trace (main host inv)
      = Connect ("unix:" ++ socketPath inv)
        :: Stdout ("Unknown command: " ++ Arg inv 0 ++ nl)
        :: usage_trace host)
  /\ (Args inv <> [] ->
      NewClient host ("unix:" ++ socketPath inv) = None ->
      needs_argument (Arg inv 0) = true ->
      (List.length (Args inv) < 2)%nat ->
      trace (main host inv)
      = [Connect ("unix:" ++ socketPath inv);
         Stderr (log_line (log_header host)
                   (if String.eqb (Arg inv 0) "join"
                    then "Usage: join <lobby_id>"
                    else "Usage: invite <steam_id>"))])
  /\ (forall err,
      Args inv <> [] ->
      NewClient host ("unix:" ++ socketPath inv) = Some err ->
      trace (main host inv)
      = [Connect ("unix:" ++ socketPath inv);
         Stderr (log_line (log_header host) ("did not connect: " ++ err))]).
Proof.
  intros Herr.
  assert (Hunknown :
            Args inv <> [] ->
            NewClient host ("unix:" ++ socketPath inv) = None ->
            recognized (Arg inv 0) = false ->
            main host inv
            = {| trace := Connect ("unix:" ++ socketPath inv)
                          :: Stdout ("Unknown command: " ++ Arg inv 0 ++ nl)
                          :: usage_trace host;
                 status := 1 |}).
  { intros Hargs Hnew Hrec. rewrite (main_dispatch host inv Hargs Hnew).
    apply command_method_none in Hrec.
    now rewrite (dispatch_unknown host inv call_context Hrec). }
  assert (Hmissing :
            Args inv <> [] ->
            NewClient host ("unix:" ++ socketPath inv) = None ->
            needs_argument (Arg inv 0) = true ->
            (List.length (Args inv) < 2)%nat ->
            main host inv
            = {| trace :=
                   [Connect ("unix:" ++ socketPath inv);
                    Stderr (log_line (log_header host)
                              (if String.eqb (Arg inv 0) "join"
                               then "Usage: join <lobby_id>"
                               else "Usage: invite <steam_id>"))];
                 status := 1 |}).
  { intros Hargs Hnew Hneed Hlen. rewrite (main_dispatch host inv Hargs Hnew).
    now rewrite (dispatch_missing_argument host inv call_context Hneed Hlen). }
  assert (Hend : status (main host inv) = 1
                 /\ calls_of (trace (main host inv)) = []).
  { assert (Hcases : Args inv = [] \/ Args inv <> [])
      by (destruct (Args inv); [ left; reflexivity | right; discriminate ]).
    destruct Hcases as [Hnil | Hne].
    - rewrite (main_no_command host inv Hnil). split; reflexivity.
    - destruct (NewClient host ("unix:" ++ socketPath inv)) as [err | ] eqn:Hnew.
      + rewrite (main_no_client host inv err Hne Hnew). split; reflexivity.
      + destruct Herr as [Hnil | [Hrec | [Hneed Hlen]]].
        * contradiction.
        * rewrite (Hunknown Hne eq_refl Hrec). split; reflexivity.
        * rewrite (Hmissing Hne eq_refl Hneed Hlen). split; reflexivity. }
  destruct Hend as [Hstatus Hcalls].
  split; [ exact Hstatus | ]. split; [ exact Hcalls | ].
  split; [ | split; [ | split; [ | split; [ | split ] ] ] ].
  - intros Hnil. now rewrite (main_no_command host inv Hnil).
  - intros c Hin. simpl in Hin.
    repeat (destruct Hin as [<- | Hin]; [ reflexivity | ]). contradiction.
  - unfold usage_trace, printUsage, PrintDefaults, defaultSocketPath.
    destruct (String.eqb (GOOS host) "windows"); reflexivity.
  - intros Hargs Hnew Hrec. now rewrite (Hunknown Hargs Hnew Hrec).
  - intros Hargs Hnew Hneed Hlen. now rewrite (Hmissing Hargs Hnew Hneed Hlen).
  - intros err Hargs Hnew. now rewrite (main_no_client host inv err Hargs Hnew).
Qed.

Lemma usage_error_exits_1_without_call_witness :
  status (@main linux_host answering (invocation ["frobnicate"])) = 1
  /\ calls_of (trace (@main linux_host answering (invocation ["frobnicate"])))
     = [].
Proof.
  assert (H : usage_error (invocation ["frobnicate"]))
    by (right; left; reflexivity).
  split.
  - exact (proj1 (usage_error_exits_1_without_call
                    linux_host answering (invocation ["frobnicate"]) H)).
  - exact (proj1 (proj2 (usage_error_exits_1_without_call
                           linux_host answering (invocation ["frobnicate"]) H))).
Defined.

(** ** Rendering of answers *)

(** C2: when the routing table is received, the handler prints the header
    and then, route by route in the order of the answer, a line with the
    address in dotted-quad form, the interface name and the is-local flag;
    the four numbers are [(v>>24)&0xFF], [(v>>16)&0xFF], [(v>>8)&0xFF] and
    [v&0xFF], and the three sample addresses render as expected. *)
Theorem vpn_routes_rendering
    (host : Host) (client : ConnectToolServiceClient) (ctx : Context)
    (r : GetVPNRoutingTableResponse.t) :
  GetVPNRoutingTable ctx GetVPNRoutingTableRequest.Build = inr r ->
  getVPNRoutingTable host ctx
  = (Rpc ctx (ReqGetVPNRoutingTable GetVPNRoutingTableRequest.Build)
     :: Stdout ("Routing Table:" ++ nl)
     :: map (fun route =>
               Stdout ("  - IP: " ++ dotted_quad (VPNRoute.Ip route)
                       ++ ", Name: " ++ VPNRoute.Name route
                       ++ ", Local: " ++ fmt_v (VPNRoute.IsLocal route) ++ nl))
            (GetVPNRoutingTableResponse.Routes r),
     Done tt)
  /\ (forall v, ip_string v = dotted_quad v)
  /\ ip_string 0xC0A80001 = "192.168.0.1"
  /\ ip_string 0x00000000 = "0.0.0.0"
  /\ ip_string 0xFFFFFFFF = "255.255.255.255".
Proof.
  intros H. split; [ | split; [ exact ip_string_dotted_quad | ] ].
  - rewrite (getVPNRoutingTable_answer host ctx r H).
    do 3 f_equal. apply map_ext. intros route.
    unfold route_line. now rewrite ip_string_dotted_quad.
  - repeat split.
Qed.

Lemma vpn_routes_rendering_witness :
  @getVPNRoutingTable linux_host answering call_context
  = ([Rpc call_context (ReqGetVPNRoutingTable GetVPNRoutingTableRequest.Build);
      Stdout ("Routing Table:" ++ nl);
      Stdout ("  - IP: 192.168.0.1, Name: eth0, Local: true" ++ nl);
      Stdout ("  - IP: 0.0.0.0, Name: lo, Local: false" ++ nl)],
     Done tt).
Proof.
  exact (proj1 (vpn_routes_rendering linux_host answering call_context
                  (GetVPNRoutingTableResponse.Build
                     [VPNRoute.Build 0xC0A80001 "eth0" true;
                      VPNRoute.Build 0 "lo" false])
                  eq_refl)).
Defined.

(** C3: [create], answered with success and lobby id [L123], prints the
    one line [Success: true, Lobby ID: L123] and exits with status 0. *)
Theorem create_prints_success_and_lobby_id
    (host : Host) (client : ConnectToolServiceClient)
    (inv : Invocation) (rest : list string) :
  Args inv = "create" :: rest ->
  NewClient host ("unix:" ++ socketPath inv) = None ->
  CreateLobby call_context CreateLobbyRequest.Build
  = inr (CreateLobbyResponse.Build true "L123") ->
  stdout_of (trace (main host inv)) = "Success: true, Lobby ID: L123" ++ nl
  /\ status (main host inv) = 0
  /\ trace (main host inv)
     = [Connect ("unix:" ++ socketPath inv);
        Rpc call_context (ReqCreateLobby CreateLobbyRequest.Build);
        Stdout ("Success: true, Lobby ID: L123" ++ nl);
        Cancel; Close].
Proof.
  intros Hargs Hnew Hanswer.
  assert (Hmain : main host inv
                  = {| trace := [Connect ("unix:" ++ socketPath inv);
                                 Rpc call_context
                                   (ReqCreateLobby CreateLobbyRequest.Build);
                                 Stdout ("Success: true, Lobby ID: L123" ++ nl);
                                 Cancel; Close];
                       status := 0 |}).
  { rewrite (main_handler host inv MCreateLobby).
    - simpl handler. now rewrite (createLobby_answer host call_context _ Hanswer).
    - rewrite Hargs. discriminate.
    - assumption.
    - unfold Arg. now rewrite Hargs.
    - unfold Arg. rewrite Hargs. discriminate. }
  rewrite Hmain. repeat split.
Qed.

Lemma create_prints_success_and_lobby_id_witness :
  stdout_of (trace (@main linux_host answering (invocation ["create"])))
  = "Success: true, Lobby ID: L123" ++ nl
  /\ status (@main linux_host answering (invocation ["create"])) = 0.
Proof.
  pose proof (create_prints_success_and_lobby_id
                linux_host answering (invocation ["create"]) []
                eq_refl eq_refl eq_refl) as H.
  exact (conj (proj1 H) (proj1 (proj2 H))).
Defined.

(** C4: an [info] answer that says "not in lobby" prints the first line
    only, whatever lobby id and members it carries; one that says "in
    lobby" with no members prints the lobby id and the [Members:] header
    and no member line. *)
Theorem info_rendering
    (host : Host) (client : ConnectToolServiceClient) (ctx : Context)
    (r : GetLobbyInfoResponse.t) :
  GetLobbyInfo ctx GetLobbyInfoRequest.Build = inr r ->
  (GetLobbyInfoResponse.IsInLobby r = false ->
   getLobbyInfo host ctx
   = ([Rpc ctx (ReqGetLobbyInfo GetLobbyInfoRequest.Build);
       Stdout ("In Lobby: false" ++ nl)],
      Done tt))
  /\ (GetLobbyInfoResponse.IsInLobby r = true ->
      GetLobbyInfoResponse.Members r = [] ->
      getLobbyInfo host ctx
      = ([Rpc ctx (ReqGetLobbyInfo GetLobbyInfoRequest.Build);
          Stdout ("In Lobby: true" ++ nl);
          Stdout ("Lobby ID: " ++ GetLobbyInfoResponse.LobbyId r ++ nl);
          Stdout ("Members:" ++ nl)],
         Done tt)).
Proof.
  intros H. rewrite (getLobbyInfo_answer host ctx r H). split.
  - intros ->. reflexivity.
  - intros -> ->. reflexivity.
Qed.

Lemma info_rendering_witness :
  @getLobbyInfo linux_host answering call_context
  = ([Rpc call_context (ReqGetLobbyInfo GetLobbyInfoRequest.Build);
      Stdout ("In Lobby: false" ++ nl)],
     Done tt)
  /\ @getLobbyInfo linux_host idle call_context
     = ([Rpc call_context (ReqGetLobbyInfo GetLobbyInfoRequest.Build);
         Stdout ("In Lobby: true" ++ nl);
         Stdout ("Lobby ID: L9" ++ nl);
         Stdout ("Members:" ++ nl)],
        Done tt).
Proof.
  split.
  - exact (proj1 (info_rendering linux_host answering call_context
                    (GetLobbyInfoResponse.Build false "L9" [sample_member])
                    eq_refl)
                 eq_refl).
  - exact (proj2 (info_rendering linux_host idle call_context
                    (GetLobbyInfoResponse.Build true "L9" [])
                    eq_refl)
                 eq_refl eq_refl).
Defined.

(** C5: a [vpn-status] answer with the VPN disabled prints the first line
    only, whatever address, device and stats it carries; with the VPN
    enabled the local address and the device follow, and the stats lines
    follow them exactly when the answer has a stats payload. *)
Theorem vpn_status_rendering
    (host : Host) (client : ConnectToolServiceClient) (ctx : Context)
    (r : GetVPNStatusResponse.t) :
  GetVPNStatus ctx GetVPNStatusRequest.Build = inr r ->
  (GetVPNStatusResponse.Enabled r = false ->
   getVPNStatus host ctx
   = ([Rpc ctx (ReqGetVPNStatus GetVPNStatusRequest.Build);
       Stdout ("Enabled: false" ++ nl)],
      Done tt))
  /\ (GetVPNStatusResponse.Enabled r = true ->
      GetVPNStatusResponse.Stats r = None ->
      getVPNStatus host ctx
      = ([Rpc ctx (ReqGetVPNStatus GetVPNStatusRequest.Build);
          Stdout ("Enabled: true" ++ nl);
          Stdout ("Local IP: " ++ GetVPNStatusResponse.LocalIp r ++ nl);
          Stdout ("Device: " ++ GetVPNStatusResponse.DeviceName r ++ nl)],
         Done tt))
  /\ (forall stats,
      GetVPNStatusResponse.Enabled r = true ->
      GetVPNStatusResponse.Stats r = Some stats ->
      getVPNStatus host ctx
      = ([Rpc ctx (ReqGetVPNStatus GetVPNStatusRequest.Build);
          Stdout ("Enabled: true" ++ nl);
          Stdout ("Local IP: " ++ GetVPNStatusResponse.LocalIp r ++ nl);
          Stdout ("Device: " ++ GetVPNStatusResponse.DeviceName r ++ nl);
          Stdout ("Stats:" ++ nl);
          Stdout ("  Sent: " ++ fmt_d (VPNStats.PacketsSent stats)
                  ++ " pkts / " ++ fmt_d (VPNStats.BytesSent stats)
                  ++ " bytes" ++ nl);
          Stdout ("  Recv: " ++ fmt_d (VPNStats.PacketsReceived stats)
                  ++ " pkts / " ++ fmt_d (VPNStats.BytesReceived stats)
                  ++ " bytes" ++ nl);
          Stdout ("  Dropped: " ++ fmt_d (VPNStats.PacketsDropped stats)
                  ++ " pkts" ++ nl)],
         Done tt)).
Proof.
  intros H. rewrite (getVPNStatus_answer host ctx r H).
  split; [ | split ].
  - intros ->. reflexivity.
  - intros -> ->. reflexivity.
  - intros stats -> ->. reflexivity.
Qed.

Lemma vpn_status_rendering_witness :
  @getVPNStatus linux_host answering call_context
  = ([Rpc call_context (ReqGetVPNStatus GetVPNStatusRequest.Build);
      Stdout ("Enabled: false" ++ nl)],
     Done tt)
  /\ @getVPNStatus linux_host idle call_context
     = ([Rpc call_context (ReqGetVPNStatus GetVPNStatusRequest.Build);
         Stdout ("Enabled: true" ++ nl);
         Stdout ("Local IP: 10.0.0.1" ++ nl);
         Stdout ("Device: tun0" ++ nl)],
        Done tt).
Proof.
  split.
  - exact (proj1 (vpn_status_rendering linux_host answering call_context
                    (GetVPNStatusResponse.Build false "10.0.0.1" "tun0"
                       (Some sample_stats))
                    eq_refl)
                 eq_refl).
  - exact (proj1 (proj2 (vpn_status_rendering linux_host idle call_context
                           (GetVPNStatusResponse.Build true "10.0.0.1" "tun0"
                              None)
                           eq_refl))
                 eq_refl eq_refl).
Defined.

(** ** Failed and answered calls *)

Lemma append_empty_r (s : string) : s ++ "" = s.
Proof. induction s as [ | ch s IH]; simpl; [ reflexivity | now rewrite IH ]. Qed.

Lemma stdout_of_released (tr : list Event) :
  stdout_of (tr ++ [Cancel; Close]) = stdout_of tr.
Proof. rewrite stdout_of_app. simpl. apply append_empty_r. Qed.

Lemma stderr_of_released (tr : list Event) :
  stderr_of tr = "" -> stderr_of (tr ++ [Cancel; Close]) = "".
Proof.
  induction tr as [ | e tr IH]; simpl; [ reflexivity | ].
  destruct e; simpl; auto.
  destruct s; simpl; [ auto | discriminate ].
Qed.

(** C6: whichever command runs, a call that returns an error ends the
    process at once with status 1: the one request has gone out, the one
    line on standard error names the failed operation and the error, and
    nothing is written to standard output. *)
Theorem remote_error_is_fatal
    (host : Host) (client : ConnectToolServiceClient)
    (inv : Invocation) (m : Method) (e : string) :
  Args inv <> [] ->
  NewClient host ("unix:" ++ socketPath inv) = None ->
  command_method (Arg inv 0) = Some m ->
  (needs_argument (Arg inv 0) = true -> (2 <= List.length (Args inv))%nat) ->
  call_error m (Arg inv 1) call_context = Some e ->
  handler host m (Arg inv 1) call_context
  = ([Rpc call_context (request_of m (Arg inv 1));
      Stderr (log_line (log_header host) (failure_text m ++ e))],
     Halt 1)
  /\ trace (main host inv)
     = [Connect ("unix:" ++ socketPath inv);
        Rpc call_context (request_of m (Arg inv 1));
        Stderr (log_line (log_header host) (failure_text m ++ e))]
  /\ status (main host inv) = 1
  /\ status (main host inv) <> 0
  /\ stdout_of (trace (main host inv)) = ""
  /\ calls_of (trace (main host inv)) = [request_of m (Arg inv 1)].
Proof.
  intros Hargs Hnew Hm Harg Herr.
  pose proof (handler_error host m (Arg inv 1) call_context e Herr) as Hh.
  rewrite (main_handler host inv m Hargs Hnew Hm Harg), Hh. simpl.
  repeat split. discriminate.
Qed.

Lemma remote_error_is_fatal_witness :
  status (@main linux_host unreachable (invocation ["leave"])) = 1
  /\ stdout_of (trace (@main linux_host unreachable (invocation ["leave"])))
     = "".
Proof.
  pose proof (remote_error_is_fatal
                linux_host unreachable (invocation ["leave"]) MLeaveLobby
                "rpc error: code = DeadlineExceeded desc = context deadline exceeded"
                ltac:(discriminate) eq_refl eq_refl ltac:(discriminate)
                eq_refl) as H.
  exact (conj (proj1 (proj2 (proj2 H)))
              (proj1 (proj2 (proj2 (proj2 (proj2 H)))))).
Defined.

(** C7: whichever command runs, a call that is answered ends the process
    with status 0 and nothing on standard error; the answer is printed in
    the same form whatever its success flag says. *)
Theorem answered_call_exits_0
    (host : Host) (client : ConnectToolServiceClient)
    (inv : Invocation) (m : Method) :
  Args inv <> [] ->
  NewClient host ("unix:" ++ socketPath inv) = None ->
  command_method (Arg inv 0) = Some m ->
  (needs_argument (Arg inv 0) = true -> (2 <= List.length (Args inv))%nat) ->
  call_error m (Arg inv 1) call_context = None ->
  status (main host inv) = 0
  /\ stderr_of (trace (main host inv)) = ""
  /\ stdout_of (trace (main host inv))
     = stdout_of (fst (handler host m (Arg inv 1) call_context))
  /\ (forall r, m = MCreateLobby ->
        CreateLobby call_context CreateLobbyRequest.Build = inr r ->
        stdout_of (trace (main host inv))
        = "Success: " ++ fmt_v (CreateLobbyResponse.Success r)
          ++ ", Lobby ID: " ++ CreateLobbyResponse.LobbyId r ++ nl)
  /\ (forall r, m = MJoinLobby ->
        JoinLobby call_context (JoinLobbyRequest.Build (Arg inv 1)) = inr r ->
        stdout_of (trace (main host inv))
        = "Success: " ++ fmt_v (JoinLobbyResponse.Success r)
          ++ ", Message: " ++ JoinLobbyResponse.Message r ++ nl)
  /\ (forall r, m = MLeaveLobby ->
        LeaveLobby call_context LeaveLobbyRequest.Build = inr r ->
        stdout_of (trace (main host inv))
        = "Success: " ++ fmt_v (LeaveLobbyResponse.Success r) ++ nl)
  /\ (forall r, m = MInviteFriend ->
        InviteFriend call_context (InviteFriendRequest.Build (Arg inv 1))
        = inr r ->
        stdout_of (trace (main host inv))
        = "Success: " ++ fmt_v (InviteFriendResponse.Success r) ++ nl).
Proof.
  intros Hargs Hnew Hm Harg Hok.
  destruct (handler_answer host m (Arg inv 1) call_context Hok)
    as (tr & Hh & _ & _ & Hquiet).
  assert (Hout : stdout_of (trace (main host inv))
                 = stdout_of (fst (handler host m (Arg inv 1) call_context))).
  { rewrite (main_handler host inv m Hargs Hnew Hm Harg), Hh. simpl.
    apply stdout_of_released. }
  split; [ | split; [ | split; [ exact Hout | ] ] ].
  - now rewrite (main_handler host inv m Hargs Hnew Hm Harg), Hh.
  - rewrite (main_handler host inv m Hargs Hnew Hm Harg), Hh. simpl.
    now apply stderr_of_released.
  - rewrite Hout. clear Hh Hout.
    split; [ | split; [ | split ] ]; intros r -> Hr; simpl handler.
    + rewrite (createLobby_answer host call_context r Hr). simpl.
      now rewrite append_empty_r.
    + rewrite (joinLobby_answer host call_context _ r Hr). simpl.
      now rewrite append_empty_r.
    + rewrite (leaveLobby_answer host call_context r Hr). simpl.
      now rewrite append_empty_r.
    + rewrite (inviteFriend_answer host call_context _ r Hr). simpl.
      now rewrite append_empty_r.
Qed.

Lemma answered_call_exits_0_witness :
  status (@main linux_host answering (invocation ["join"; "L1"])) = 0
  /\ stdout_of (trace (@main linux_host answering (invocation ["join"; "L1"])))
     = "Success: false, Message: no lobby L1" ++ nl.
Proof.
  pose proof (answered_call_exits_0
                linux_host answering (invocation ["join"; "L1"]) MJoinLobby
                ltac:(discriminate) eq_refl eq_refl
                (fun _ => le_n 2) eq_refl) as H.
  exact (conj (proj1 H)
              (proj1 (proj2 (proj2 (proj2 (proj2 H))))
                 (JoinLobbyResponse.Build false "no lobby L1")
                 eq_refl eq_refl)).
Defined.

(** C10: [friends] answered with no lobby and [vpn-routes] answered with
    no route print their header line and nothing else, and the process
    exits with status 0. *)
Theorem empty_lists_print_header_only
    (host : Host) (client : ConnectToolServiceClient) (inv : Invocation) :
  Args inv <> [] ->
  NewClient host ("unix:" ++ socketPath inv) = None ->
  (forall r,
     Arg inv 0 = "friends" ->
     GetFriendLobbies call_context GetFriendLobbiesRequest.Build = inr r ->
     GetFriendLobbiesResponse.Lobbies r = [] ->
     stdout_of (trace (main host inv)) = "Friend Lobbies:" ++ nl
     /\ stderr_of (trace (main host inv)) = ""
     /\ status (main host inv) = 0)
  /\ (forall r,
        Arg inv 0 = "vpn-routes" ->
        GetVPNRoutingTable call_context GetVPNRoutingTableRequest.Build
        = inr r ->
        GetVPNRoutingTableResponse.Routes r = [] ->
        stdout_of (trace (main host inv)) = "Routing Table:" ++ nl
        /\ stderr_of (trace (main host inv)) = ""
        /\ status (main host inv) = 0).
Proof.
  intros Hargs Hnew. split; intros r Hcmd Hr Hnil.
  - rewrite (main_handler host inv MGetFriendLobbies Hargs Hnew);
      [ | now rewrite Hcmd | rewrite Hcmd; discriminate ].
    simpl handler.
    rewrite (getFriendLobbies_answer host call_context r Hr), Hnil.
    repeat split.
  - rewrite (main_handler host inv MGetVPNRoutingTable Hargs Hnew);
      [ | now rewrite Hcmd | rewrite Hcmd; discriminate ].
    simpl handler.
    rewrite (getVPNRoutingTable_answer host call_context r Hr), Hnil.
    repeat split.
Qed.

Lemma empty_lists_print_header_only_witness :
  stdout_of (trace (@main linux_host idle (invocation ["friends"])))
  = "Friend Lobbies:" ++ nl
  /\ stdout_of (trace (@main linux_host idle (invocation ["vpn-routes"])))
     = "Routing Table:" ++ nl.
Proof.
  split.
  - exact (proj1 (proj1 (empty_lists_print_header_only
                           linux_host idle (invocation ["friends"])
                           ltac:(discriminate) eq_refl)
                        (GetFriendLobbiesResponse.Build [])
                        eq_refl eq_refl eq_refl)).
  - exact (proj1 (proj2 (empty_lists_print_header_only
                           linux_host idle (invocation ["vpn-routes"])
                           ltac:(discriminate) eq_refl)
                        (GetVPNRoutingTableResponse.Build [])
                        eq_refl eq_refl eq_refl)).
Defined.

(** ** Commands and requests *)

Lemma command_method_inv (c : string) (m : Method) :
  command_method c = Some m -> c = method_command m.
Proof.
  unfold command_method.
  destruct (String.eqb_spec c "create"); [ now intros [= <-] | ].
  destruct (String.eqb_spec c "join"); [ now intros [= <-] | ].
  destruct (String.eqb_spec c "leave"); [ now intros [= <-] | ].
  destruct (String.eqb_spec c "info"); [ now intros [= <-] | ].
  destruct (String.eqb_spec c "friends"); [ now intros [= <-] | ].
  destruct (String.eqb_spec c "invite"); [ now intros [= <-] | ].
  destruct (String.eqb_spec c "vpn-status"); [ now intros [= <-] | ].
  destruct (String.eqb_spec c "vpn-routes"); [ now intros [= <-] | ].
  discriminate.
Qed.

Lemma commands_nodup : NoDup commands.
Proof.
  unfold commands.
  repeat (constructor; [ simpl; intuition discriminate | ]).
  constructor.
Qed.

(** The deadline of every call is five seconds, in nanoseconds. *)
Lemma call_context_timeout : timeout call_context = Some 5000000000.
Proof. reflexivity. Qed.

(** No more pairs are exercised than there are methods. *)
Lemma pairs_exercised_bound
    (host : Host) (client : ConnectToolServiceClient) (n : nat) :
  pairs_exercised host n -> (n <= 8)%nat.
Proof.
  intros (ms & Hnd & <- & _).
  change 8%nat with (List.length all_methods).
  apply NoDup_incl_length; [ assumption | ].
  intros m _. apply in_all_methods.
Qed.

Lemma pairs_exercised_eight
    (host : Host) (client : ConnectToolServiceClient) (sock : string) :
  NewClient host ("unix:" ++ sock) = None ->
  pairs_exercised host 8.
Proof.
  intros Hnew. exists all_methods.
  split; [ apply all_methods_nodup | split; [ reflexivity | ] ].
  intros m. split.
  - intros _. now apply (method_exercised host sock).
  - intros _. apply in_all_methods.
Qed.

(** C9, as stated, does not hold: the requests the client sends go to
    eight methods, one for each of the eight commands, not to nine. *)
Lemma client_exercises_eight_pairs_not_nine :
  @pairs_exercised linux_host answering 8
  /\ ~ @pairs_exercised linux_host answering 9.
Proof.
  split.
  - now apply (pairs_exercised_eight linux_host answering "/tmp/connect_tool.sock").
  - intros H. apply pairs_exercised_bound in H. lia.
Qed.

(** C9, amended: the client exercises eight request/response pairs, one
    for each command.  The dispatcher recognizes the eight listed commands
    and no other token; a recognized command that has the argument it
    needs runs one handler, which sends one request, of that command's own
    variant; and no two commands share a variant. *)
Theorem eight_commands_eight_requests
    (host : Host) (client : ConnectToolServiceClient) (sock : string) :
  NewClient host ("unix:" ++ sock) = None ->
  pairs_exercised host 8
  /\ List.length commands = 8%nat
  /\ NoDup commands
  /\ (forall inv ctx,
        ~ In (Arg inv 0) commands ->
        dispatch host inv ctx
        = (Stdout ("Unknown command: " ++ Arg inv 0 ++ nl) :: usage_trace host,
           Halt 1))
  /\ (forall inv ctx,
        In (Arg inv 0) commands ->
        (needs_argument (Arg inv 0) = true ->
         (2 <= List.length (Args inv))%nat) ->
        exists m,
          command_method (Arg inv 0) = Some m
          /\ dispatch host inv ctx = handler host m (Arg inv 1) ctx
          /\ calls_of (fst (dispatch host inv ctx)) = [request_of m (Arg inv 1)]
          /\ method_of (request_of m (Arg inv 1)) = m)
  /\ (forall c1 c2 m,
        command_method c1 = Some m -> command_method c2 = Some m -> c1 = c2).
Proof.
  intros Hnew.
  split; [ now apply (pairs_exercised_eight host client sock) | ].
  split; [ reflexivity | ].
  split; [ apply commands_nodup | ].
  split; [ | split ].
  - intros inv ctx Hnot. apply dispatch_unknown.
    apply command_method_none.
    destruct (recognized (Arg inv 0)) eqn:E; [ | reflexivity ].
    apply recognized_iff in E. contradiction.
  - intros inv ctx Hin Harg.
    apply recognized_iff, command_method_recognized in Hin.
    destruct Hin as [m Hm]. exists m.
    split; [ exact Hm | ].
    rewrite (dispatch_handler host inv ctx m Hm Harg).
    split; [ reflexivity | ].
    split; [ apply handler_calls_once | apply method_of_request ].
  - intros c1 c2 m H1 H2.
    apply command_method_inv in H1, H2. congruence.
Qed.

Lemma eight_commands_eight_requests_witness :
  @pairs_exercised linux_host answering 8 /\ List.length commands = 8%nat.
Proof.
  pose proof (eight_commands_eight_requests
                linux_host answering "/tmp/connect_tool.sock" eq_refl) as H.
  exact (conj (proj1 H) (proj1 (proj2 H))).
Defined.

(** ** Sample runs *)

Example vpn_routes_end_to_end :
  @main linux_host answering (invocation ["vpn-routes"])
  = {| trace :=
         [Connect "unix:/tmp/connect_tool.sock";
          Rpc call_context
            (ReqGetVPNRoutingTable GetVPNRoutingTableRequest.Build);
          Stdout ("Routing Table:" ++ nl);
          Stdout ("  - IP: 192.168.0.1, Name: eth0, Local: true" ++ nl);
          Stdout ("  - IP: 0.0.0.0, Name: lo, Local: false" ++ nl);
          Cancel; Close];
       status := 0 |}.
Proof. reflexivity. Qed.

Example invite_without_argument :
  @main linux_host answering (invocation ["invite"])
  = {| trace :=
         [Connect "unix:/tmp/connect_tool.sock";
          Stderr ("2026/01/02 03:04:05 Usage: invite <steam_id>" ++ nl)];
       status := 1 |}.
Proof. reflexivity. Qed.

Example unknown_command_without_client :
  @main broken_host answering (invocation ["frobnicate"])
  = {| trace :=
         [Connect "unix:/tmp/connect_tool.sock";
          Stderr ("2026/01/02 03:04:05 did not connect: invalid target" ++ nl)];
       status := 1 |}.
Proof. reflexivity. Qed.

Example timed_out_call :
  @main linux_host unreachable (invocation ["vpn-status"])
  = {| trace :=
         [Connect "unix:/tmp/connect_tool.sock";
          Rpc call_context (ReqGetVPNStatus GetVPNStatusRequest.Build);
          Stderr ("2026/01/02 03:04:05 could not get VPN status: "
                  ++ "rpc error: code = DeadlineExceeded "
                  ++ "desc = context deadline exceeded" ++ nl)];
       status := 1 |}.
Proof. reflexivity. Qed.

(** * Further properties of the program *)

(** ** Every run is of one of six kinds *)



Section Runs.

Context (host : Host) {client : ConnectToolServiceClient}.




End Runs.

(** ** Consequences of the classification *)





Section Consequences.

Context (host : Host) {client : ConnectToolServiceClient}.







End Consequences.

(** ** Positional arguments *)

Section Arguments.

Context (host : Host) {client : ConnectToolServiceClient}.

(** Positional arguments after the second are never looked at, and for
    the commands without an argument of their own neither is the
    second. *)
Theorem trailing_arguments_ignored
    (sock c a : string) (rest : list string) :
  main host {| socketPath := sock; Args := c :: a :: rest |}
  = main host {| socketPath := sock; Args := [c; a] |}
  /\ (needs_argument c = false ->
      main host {| socketPath := sock; Args := c :: a :: rest |}
      = main host {| socketPath := sock; Args := [c] |}).
Proof.
  split; [ reflexivity | ].
  intros Hneed. unfold needs_argument in Hneed.
  apply orb_false_iff in Hneed. destruct Hneed as [Hjoin Hinvite].
  unfold main, main_body, dispatch, Arg. cbn [Args socketPath nth].
  rewrite Hjoin, Hinvite. reflexivity.
Qed.

(** [join] and [invite] pass their argument on as it is, whatever it is
    (the empty string too): the one request of the run carries it. *)
Theorem argument_sent_verbatim
    (inv : Invocation) (a : string) (rest : list string) :
  NewClient host ("unix:" ++ socketPath inv) = None ->
  (Args inv = "join" :: a :: rest ->
   calls_of (trace (main host inv))
   = [ReqJoinLobby (JoinLobbyRequest.Build a)])
  /\ (Args inv = "invite" :: a :: rest ->
      calls_of (trace (main host inv))
      = [ReqInviteFriend (InviteFriendRequest.Build a)]).
Proof.
  intros Hnew. split; intros Hargs.
  - destruct (main_calls host inv MJoinLobby) as [Hc _];
      try assumption;
      try (unfold Arg; rewrite Hargs; simpl; (discriminate || reflexivity || lia)).
    rewrite Hc. unfold Arg. now rewrite Hargs.
  - destruct (main_calls host inv MInviteFriend) as [Hc _];
      try assumption;
      try (unfold Arg; rewrite Hargs; simpl; (discriminate || reflexivity || lia)).
    rewrite Hc. unfold Arg. now rewrite Hargs.
Qed.

End Arguments.

Lemma argument_sent_verbatim_witness :
  calls_of (trace (@main linux_host answering (invocation ["join"; ""])))
  = [ReqJoinLobby (JoinLobbyRequest.Build "")].
Proof.
  exact (proj1 (@argument_sent_verbatim
                  linux_host answering
                  (invocation ["join"; ""]) "" [] eq_refl)
               eq_refl).
Defined.


(** ** Lists in answers *)

(** An [info] answer that says "in lobby" prints, after the lobby id and
    the [Members:] header, one line for each member, in the order of the
    answer, with name, id, ping and relay; nothing else is printed. *)
Theorem info_lists_members_in_order
    (host : Host) (client : ConnectToolServiceClient) (ctx : Context)
    (r : GetLobbyInfoResponse.t) :
  GetLobbyInfo ctx GetLobbyInfoRequest.Build = inr r ->
  GetLobbyInfoResponse.IsInLobby r = true ->
  getLobbyInfo host ctx
  = (Rpc ctx (ReqGetLobbyInfo GetLobbyInfoRequest.Build)
     :: Stdout ("In Lobby: true" ++ nl)
     :: Stdout ("Lobby ID: " ++ GetLobbyInfoResponse.LobbyId r ++ nl)
     :: Stdout ("Members:" ++ nl)
     :: map (fun m =>
               Stdout ("  - Name: " ++ LobbyMember.Name m
                       ++ ", ID: " ++ LobbyMember.SteamId m
                       ++ ", Ping: " ++ fmt_d (LobbyMember.Ping m)
                       ++ ", Relay: " ++ LobbyMember.RelayInfo m ++ nl))
            (GetLobbyInfoResponse.Members r),
     Done tt)
  /\ List.length (fst (getLobbyInfo host ctx))
     = (4 + List.length (GetLobbyInfoResponse.Members r))%nat.
Proof.
  intros H Hin. rewrite (getLobbyInfo_answer host ctx r H), Hin.
  split; [ reflexivity | ]. simpl. now rewrite length_map.
Qed.

Lemma info_lists_members_in_order_witness :
  @getLobbyInfo linux_host busy call_context
  = ([Rpc call_context (ReqGetLobbyInfo GetLobbyInfoRequest.Build);
      Stdout ("In Lobby: true" ++ nl);
      Stdout ("Lobby ID: L9" ++ nl);
      Stdout ("Members:" ++ nl);
      Stdout ("  - Name: ann, ID: 76561198000000001, Ping: 42, Relay: direct"
              ++ nl);
      Stdout ("  - Name: bob, ID: 76561198000000002, Ping: -1, Relay: relay fra"
              ++ nl)],
     Done tt).
Proof.
  exact (proj1 (info_lists_members_in_order linux_host busy call_context
                  (GetLobbyInfoResponse.Build true "L9"
                     [sample_member;
                      LobbyMember.Build "bob" "76561198000000002" (-1)
                        "relay fra"])
                  eq_refl eq_refl)).
Defined.

(** A [friends] answer prints the header and then one line for each
    friend lobby, in the order of the answer, with the friend's name and
    id and the lobby id; nothing else is printed. *)
Theorem friends_lists_lobbies_in_order
    (host : Host) (client : ConnectToolServiceClient) (ctx : Context)
    (r : GetFriendLobbiesResponse.t) :
  GetFriendLobbies ctx GetFriendLobbiesRequest.Build = inr r ->
  getFriendLobbies host ctx
  = (Rpc ctx (ReqGetFriendLobbies GetFriendLobbiesRequest.Build)
     :: Stdout ("Friend Lobbies:" ++ nl)
     :: map (fun l =>
               Stdout ("  - Friend: " ++ FriendLobby.Name l
                       ++ " (" ++ FriendLobby.SteamId l
                       ++ "), Lobby: " ++ FriendLobby.LobbyId l ++ nl))
            (GetFriendLobbiesResponse.Lobbies r),
     Done tt)
  /\ List.length (fst (getFriendLobbies host ctx))
     = (2 + List.length (GetFriendLobbiesResponse.Lobbies r))%nat.
Proof.
  intros H. rewrite (getFriendLobbies_answer host ctx r H).
  split; [ reflexivity | ]. simpl. now rewrite length_map.
Qed.

Lemma friends_lists_lobbies_in_order_witness :
  @getFriendLobbies linux_host busy call_context
  = ([Rpc call_context (ReqGetFriendLobbies GetFriendLobbiesRequest.Build);
      Stdout ("Friend Lobbies:" ++ nl);
      Stdout ("  - Friend: cy (76561198000000003), Lobby: L7" ++ nl);
      Stdout ("  - Friend: di (76561198000000004), Lobby: L8" ++ nl)],
     Done tt).
Proof.
  exact (proj1 (friends_lists_lobbies_in_order linux_host busy call_context
                  (GetFriendLobbiesResponse.Build
                     [FriendLobby.Build "cy" "76561198000000003" "L7";
                      FriendLobby.Build "di" "76561198000000004" "L8"])
                  eq_refl)).
Defined.

(** ** Addresses *)

(** [%d] loses nothing: different integers give different text. *)
Lemma fmt_d_injective (a b : Z) : fmt_d a = fmt_d b -> a = b.
Proof.
  assert (Hparse : forall z,
             NilZero.int_of_string (fmt_d z) = Some (Z.to_int z)).
  { intros z. unfold fmt_d. apply NilZero.isi; destruct z; simpl;
      try discriminate; intros [= E];
      now apply DecimalPos.Unsigned.to_uint_nonnil in E. }
  intros H. apply DecimalZ.to_int_inj.
  pose proof (Hparse a) as Ha. rewrite H, Hparse in Ha. now injection Ha.
Qed.

Lemma string_of_uint_dot_free (d : Decimal.uint) :
  dot_free (NilEmpty.string_of_uint d) = true.
Proof. induction d; simpl; auto. Qed.

Lemma fmt_d_dot_free (z : Z) : dot_free (fmt_d z) = true.
Proof.
  unfold fmt_d.
  destruct (Z.to_int z) as [d | d]; simpl;
    destruct d; simpl; auto using string_of_uint_dot_free.
Qed.

(** Text before the first dot, and text after it, are determined. *)
Lemma dotted_split (s1 s2 r1 r2 : string) :
  dot_free s1 = true -> dot_free s2 = true ->
  s1 ++ "." ++ r1 = s2 ++ "." ++ r2 ->
  s1 = s2 /\ r1 = r2.
Proof.
  revert s2. induction s1 as [ | c s1 IH]; intros [ | c2 s2]; simpl;
    intros H1 H2 E.
  - injection E as ->. split; reflexivity.
  - injection E as <- _. discriminate.
  - injection E as -> _. discriminate.
  - injection E as -> E.
    apply andb_true_iff in H1, H2.
    destruct (IH s2 (proj2 H1) (proj2 H2) E) as [-> ->].
    split; reflexivity.
Qed.

Lemma bytes_recompose (v : Z) :
  0 <= v < 2 ^ 32 ->
  byte (Z.shiftr v 24) * 2 ^ 24 + byte (Z.shiftr v 16) * 2 ^ 16
  + byte (Z.shiftr v 8) * 2 ^ 8 + byte v
  = v.
Proof.
  unfold byte. intros [Hlo Hhi].
  rewrite !Z.shiftr_div_pow2 by lia.
  change (2 ^ 32) with 4294967296 in Hhi.
  change (2 ^ 24) with 16777216. change (2 ^ 16) with 65536.
  change (2 ^ 8) with 256.
  Z.to_euclidean_division_equations. lia.
Qed.

(** The four numbers of a 32-bit address put together again, most
    significant first, give the address: the rendering drops no bit. *)
Theorem ip_octets_recompose (r : VPNRoute.t) :
  VPNRoute.wf r ->
  byte (Z.shiftr (VPNRoute.Ip r) 24) * 2 ^ 24
  + byte (Z.shiftr (VPNRoute.Ip r) 16) * 2 ^ 16
  + byte (Z.shiftr (VPNRoute.Ip r) 8) * 2 ^ 8
  + byte (VPNRoute.Ip r)
  = VPNRoute.Ip r.
Proof. intros H. now apply bytes_recompose. Qed.

Lemma ip_octets_recompose_witness :
  byte (Z.shiftr 0xC0A80001 24) * 2 ^ 24
  + byte (Z.shiftr 0xC0A80001 16) * 2 ^ 16
  + byte (Z.shiftr 0xC0A80001 8) * 2 ^ 8
  + byte 0xC0A80001
  = 0xC0A80001.
Proof.
  apply (ip_octets_recompose (VPNRoute.Build 0xC0A80001 "eth0" true)).
  unfold VPNRoute.wf. simpl. lia.
Defined.

(** Two 32-bit addresses are printed alike only if they are the same
    address. *)
Theorem ip_string_injective (r r' : VPNRoute.t) :
  VPNRoute.wf r -> VPNRoute.wf r' ->
  ip_string (VPNRoute.Ip r) = ip_string (VPNRoute.Ip r') ->
  VPNRoute.Ip r = VPNRoute.Ip r'.
Proof.
  intros Hr Hr' E.
  rewrite <- (bytes_recompose _ Hr), <- (bytes_recompose _ Hr').
  unfold ip_string in E.
  apply dotted_split in E; try apply fmt_d_dot_free. destruct E as [E1 E].
  apply dotted_split in E; try apply fmt_d_dot_free. destruct E as [E2 E].
  apply dotted_split in E; try apply fmt_d_dot_free. destruct E as [E3 E4].
  apply fmt_d_injective in E1, E2, E3, E4.
  now rewrite E1, E2, E3, E4.
Qed.

Lemma ip_string_injective_witness :
  VPNRoute.Ip (VPNRoute.Build 0xC0A80001 "eth0" true)
  = VPNRoute.Ip (VPNRoute.Build 0xC0A80001 "wlan0" false).
Proof.
  apply ip_string_injective.
  - unfold VPNRoute.wf. simpl. lia.
  - unfold VPNRoute.wf. simpl. lia.
  - reflexivity.
Defined.

(** ** The socket path *)

Section Socket.

Context (host : Host) {client : ConnectToolServiceClient}.



(** The default socket path is the relative name [connect_tool.sock] on
    Windows and [/tmp/connect_tool.sock] on every other host, and it is
    the host's default that the usage message shows, whatever socket path
    the invocation carries. *)
Theorem usage_shows_platform_default (inv : Invocation) :
  Args inv = [] ->
  (GOOS host = "windows" <-> defaultSocketPath host = "connect_tool.sock")
  /\ (GOOS host <> "windows"
      <-> defaultSocketPath host = "/tmp/connect_tool.sock")
  /\ stderr_of (trace (main host inv))
     = "  -socket string" ++ nl ++ "    " ++ tab
       ++ "Path to the Unix Domain Socket (default "
       ++ dquote ++ defaultSocketPath host ++ dquote ++ ")" ++ nl.
Proof.
  intros Hnil. rewrite (main_no_command host inv Hnil).
  unfold defaultSocketPath.
  destruct (String.eqb_spec (GOOS host) "windows") as [E | E].
  - split; [ | split ]; [ tauto | | ].
    + split; [ contradiction | discriminate ].
    + unfold usage_trace, printUsage, PrintDefaults, defaultSocketPath.
      rewrite E. reflexivity.
  - split; [ | split ]; [ | tauto | ].
    + split; [ contradiction | discriminate ].
    + unfold usage_trace, printUsage, PrintDefaults, defaultSocketPath.
      apply String.eqb_neq in E. rewrite E. reflexivity.
Qed.

End Socket.


Lemma usage_shows_platform_default_witness :
  stderr_of (trace (@main windows_host answering
                      {| socketPath := "other.sock"; Args := [] |}))
  = "  -socket string" ++ nl ++ "    " ++ tab
    ++ "Path to the Unix Domain Socket (default "
    ++ dquote ++ "connect_tool.sock" ++ dquote ++ ")" ++ nl.
Proof.
  exact (proj2 (proj2 (@usage_shows_platform_default
                         windows_host answering
                         {| socketPath := "other.sock"; Args := [] |}
                         eq_refl))).
Defined.

(** ** No run is silent *)



Section Spoken.

Context (host : Host) {client : ConnectToolServiceClient}.



End Spoken.

Lemma ip_octets_witness :
  byte (Z.shiftr 0xFFFFFFFF 24) = Z.shiftr 0xFFFFFFFF 24.
Proof.
  apply (ip_octets (VPNRoute.Build 0xFFFFFFFF "tun0" false)).
  unfold VPNRoute.wf. simpl. lia.
Defined.
